(** * Vegetation segmentation utilities: a shallow embedding of
      [Vegetation_Segmentation/utils.py] and the properties of its
      thresholding, kernel sizing and index computation.

    Python floats and numpy's float64 cells are IEEE-754 binary64 values.
    They are modelled by the standard library's executable specification
    [spec_float] at precision 53 and maximal exponent 1024, so every
    operation below computes and no axiom about floats is used. Decimal
    literals of the source are read by the prover's own correctly rounded
    parser and then turned into [spec_float] values.

    A Python call either returns a value or raises: functions that can raise
    return a [result]. The [print] calls write to standard output only and
    the [fused.cache] decorator memoises a reader; neither changes what a
    function returns, and neither is part of the model, except that
    [url_to_arr] returns the status line it prints beside its outcome. *)

From Stdlib Require Import ZArith NArith List String Bool Lia.
From Stdlib Require Import DecimalString DecimalZ.
From Stdlib Require Import SpecFloat PrimFloat FloatOps.
Import ListNotations.

Set Warnings "-inexact-float".
Open Scope Z_scope.

(** ** binary64 *)

Module F64.

Definition prec : Z := 53.
Definition emax : Z := 1024.

Definition float : Type := spec_float.

Definition nan : float := S754_nan.
Definition add : float -> float -> float := SFadd prec emax.
Definition sub : float -> float -> float := SFsub prec emax.
Definition mul : float -> float -> float := SFmul prec emax.
Definition div : float -> float -> float := SFdiv prec emax.
Definition leb : float -> float -> bool := SFleb.
Definition ltb : float -> float -> bool := SFltb.
Definition geb (x y : float) : bool := SFleb y x.
Definition gtb (x y : float) : bool := SFltb y x.

(** Conversion of an integer, rounding to nearest even when the integer
    has more than 53 significant bits. *)
Definition of_int (z : Z) : float := binary_normalize prec emax z 0 false.

(** A decimal fraction [m / 10^k], correctly rounded: both operands of the
    division are exact for the values used here. *)
Definition decimal (m k : Z) : float :=
  div (of_int m) (of_int (10 ^ k)).

Definition is_nan (x : float) : bool :=
  match x with S754_nan => true | _ => false end.
Definition is_zero (x : float) : bool :=
  match x with S754_zero _ => true | _ => false end.
(** Zero or a finite non-zero number. *)
Definition is_finite (x : float) : bool :=
  match x with S754_zero _ | S754_finite _ _ _ => true | _ => false end.
(** The sign of a number. [spec_float] keeps no sign for NaN, whose sign
    bit is therefore not modelled: [false] is returned for it, and nothing
    is to be read from that. *)
Definition signbit (x : float) : bool :=
  match x with
  | S754_zero s | S754_infinity s | S754_finite s _ _ => s
  | S754_nan => false
  end.

Definition zero : float := S754_zero false.
Definition one : float := Eval vm_compute in Prim2SF 1.0%float.
Definition pinf : float := S754_infinity false.

End F64.

Abbreviation float := F64.float.

(** ** Python exceptions and results *)

Inductive exn : Type :=
| ValueError (msg : string)
| ZeroDivisionError (msg : string)
| OverflowError (msg : string)
| IndexError (msg : string)
| ExternalError (msg : string).

Inductive result (A : Type) : Type :=
| Ok (a : A)
| Raise (e : exn).
Arguments Ok {A} a.
Arguments Raise {A} e.

Definition bind {A B : Type} (r : result A) (k : A -> result B) : result B :=
  match r with
  | Ok a => k a
  | Raise e => Raise e
  end.

Notation "x <- r ;; k" := (bind r (fun x => k))
  (at level 61, r at next level, right associativity).

(** The specification's error taxonomy names the source's [ValueError]
    InvalidArgument. *)
Definition is_InvalidArgument (e : exn) : bool :=
  match e with ValueError _ => true | _ => false end.

Definition is_ok {A : Type} (r : result A) : bool :=
  match r with Ok _ => true | Raise _ => false end.

(** ** Python scalar operations used by the source *)

(** [n / x] for an int [n] and a float [x]: true division, which raises on a
    zero divisor of either sign. *)
Definition py_truediv (n : Z) (x : float) : result float :=
  if F64.is_zero x then Raise (ZeroDivisionError "float division by zero")
  else Ok (F64.div (F64.of_int n) x).

(** [int(x)] for a float: truncation toward zero; NaN and the infinities have
    no integer value. *)
Definition py_int (x : float) : result Z :=
  match x with
  | S754_nan => Raise (ValueError "cannot convert float NaN to integer")
  | S754_infinity _ =>
      Raise (OverflowError "cannot convert float infinity to integer")
  | S754_zero _ => Ok 0
  | S754_finite s m e => Ok (cond_Zopp s (Z.shiftl (Zpos m) e))
  end.

(** [n] is the value of the finite float [q] rounded toward zero: [q] is the
    fraction [(-1)^s m 2^(max e 0) / 2^(max (-e) 0)], and [Z.quot] rounds a
    quotient toward zero. *)
Definition truncation_of (q : float) (n : Z) : Prop :=
  match q with
  | S754_zero _ => n = 0
  | S754_finite s m e =>
      n = Z.quot (cond_Zopp s (Zpos m) * 2 ^ Z.max e 0) (2 ^ Z.max (- e) 0)
  | _ => False
  end.

(** ** [get_gsd_from_zoom] *)

Definition gsd_meters_per_pixel : list float :=
  Eval vm_compute in
    map Prim2SF
      [ 156412.0; 78206.0; 39103.0; 19551.5; 9775.8; 4887.8; 2443.9; 1221.9;
        610.98; 305.49; 152.74; 76.37; 38.19; 19.09; 9.55; 4.78; 2.39; 1.19;
        0.60; 0.30; 0.15; 0.07; 0.04; 0.02 ]%float.

Definition invalid_zoom_message : string :=
  "Invalid zoom level. Please provide a zoom level between 0 and 23.".

Definition get_gsd_from_zoom (zoom_level : Z) : result float :=
  if (0 <=? zoom_level) && (zoom_level <? Z.of_nat (List.length gsd_meters_per_pixel))
  then
    match nth_error gsd_meters_per_pixel (Z.to_nat zoom_level) with
    | Some gsd => Ok gsd
    | None => Raise (IndexError "list index out of range")
    end
  else Raise (ValueError invalid_zoom_message).

(** Two arguments outside the table's range of values: the subnormal 1e-309
    and -1.0. *)
Definition tiny_gsd : float := Eval vm_compute in Prim2SF 1e-309%float.
Definition minus_one : float := Eval vm_compute in Prim2SF (-1.0)%float.

(** The documented table, written independently of the source's literals as
    decimal fractions (mantissa, number of decimals). *)
Definition documented_gsd_digits : list (Z * Z) :=
  [ (156412, 0); (78206, 0); (39103, 0); (195515, 1); (97758, 1); (48878, 1);
    (24439, 1); (12219, 1); (61098, 2); (30549, 2); (15274, 2); (7637, 2);
    (3819, 2); (1909, 2); (955, 2); (478, 2); (239, 2); (119, 2); (60, 2);
    (30, 2); (15, 2); (7, 2); (4, 2); (2, 2) ].

Definition documented_gsd (zoom_level : Z) : float :=
  match nth_error documented_gsd_digits (Z.to_nat zoom_level) with
  | Some (m, k) => F64.decimal m k
  | None => F64.nan
  end.

(** ** [get_kernel_size] *)

Definition get_kernel_size (gsd : float) : result Z :=
  let diameter_of_object := 2 in
  diameter_of_object_px <- py_truediv diameter_of_object gsd ;;
  kernel_size <- py_int diameter_of_object_px ;;
  let kernel_size :=
    if kernel_size mod 2 =? 0 then kernel_size + 1 else kernel_size in
  Ok kernel_size.

(** ** numpy arrays

    An array is its shape and its cells in row-major order; the source's
    functions are written for any shape (the raster bands are 2-D). *)

Record ndarray (A : Type) : Type := mk_ndarray {
  shape : list nat;
  data : list A
}.
Arguments mk_ndarray {A} shape data.
Arguments shape {A} n.
Arguments data {A} n.

Definition size_of (s : list nat) : nat := fold_right Nat.mul 1%nat s.

(** numpy's own invariant: as many cells as the shape says. *)
Definition wf_ndarray {A : Type} (a : ndarray A) : Prop :=
  List.length (data a) = size_of (shape a).

Definition shape_eqb (s1 s2 : list nat) : bool :=
  if list_eq_dec Nat.eq_dec s1 s2 then true else false.

Section ArrayOps.
Context {A B C : Type}.

(** [np.full(shape, v)] *)
Definition np_full (s : list nat) (v : A) : ndarray A :=
  mk_ndarray s (repeat v (size_of s)).

(** A unary ufunc, or a binary one with a scalar operand. *)
Definition np_map (f : A -> B) (a : ndarray A) : ndarray B :=
  mk_ndarray (shape a) (map f (data a)).

Definition map2 (f : A -> B -> C) (xs : list A) (ys : list B) : list C :=
  map (fun p => f (fst p) (snd p)) (combine xs ys).

Fixpoint mapM (f : A -> option B) (xs : list A) : option (list B) :=
  match xs with
  | [] => Some []
  | x :: xs' =>
      match f x, mapM f xs' with
      | Some y, Some ys => Some (y :: ys)
      | _, _ => None
      end
  end.
End ArrayOps.

(** Broadcasting: shapes are aligned on their last axis; two extents are
    compatible when they are equal or one of them is 1. *)
Fixpoint broadcast_rev (r1 r2 : list nat) : option (list nat) :=
  match r1, r2 with
  | [], r | r, [] => Some r
  | a :: r1', b :: r2' =>
      match broadcast_rev r1' r2' with
      | None => None
      | Some r =>
          if (a =? b)%nat then Some (a :: r)
          else if (a =? 1)%nat then Some (b :: r)
          else if (b =? 1)%nat then Some (a :: r)
          else None
      end
  end.

Definition broadcast_shapes (s1 s2 : list nat) : option (list nat) :=
  option_map (@rev nat) (broadcast_rev (rev s1) (rev s2)).

(** All multi-indices of a shape, in row-major order. *)
Definition indices (s : list nat) : list (list nat) :=
  fold_right
    (fun n acc => flat_map (fun i => map (cons i) acc) (seq 0 n)) [[]] s.

(** Position, in the cells of an array of shape [s], of the cell that the
    multi-index [idx] of the broadcast shape reads: an axis of extent 1 is
    always read at 0. *)
Definition offset (s : list nat) (idx : list nat) : nat :=
  let idx' := skipn (List.length idx - List.length s) idx in
  fold_left
    (fun acc ni => (acc * fst ni + (if (fst ni =? 1)%nat then 0 else snd ni))%nat)
    (combine s idx') 0%nat.

(** numpy's text for a shape, [(2,3)], [(3,)] or [()], and its message for
    operands that do not broadcast, which lists the shapes of both. *)
Definition nat_to_string (n : nat) : string :=
  NilZero.string_of_uint (Nat.to_uint n).

Definition shape_to_string (s : list nat) : string :=
  match s with
  | [] => "()"
  | [n] => "(" ++ nat_to_string n ++ ",)"
  | n :: rest =>
      "(" ++ nat_to_string n
      ++ fold_right (fun d acc => "," ++ nat_to_string d ++ acc) ")" rest
  end%string.

Definition broadcast_message (s1 s2 : list nat) : string :=
  ("operands could not be broadcast together with shapes "
   ++ shape_to_string s1 ++ " " ++ shape_to_string s2 ++ " ")%string.

Section Binop.
Context {A B C : Type}.

(** A binary ufunc on two arrays. Arrays of one shape are combined cell by
    cell; others are broadcast, or rejected when their shapes are not
    compatible. *)
Definition np_binop (f : A -> B -> C) (a : ndarray A) (b : ndarray B)
  : result (ndarray C) :=
  if shape_eqb (shape a) (shape b) then
    Ok (mk_ndarray (shape a) (map2 f (data a) (data b)))
  else
    match broadcast_shapes (shape a) (shape b) with
    | None => Raise (ValueError (broadcast_message (shape a) (shape b)))
    | Some s =>
        let cell idx :=
          match nth_error (data a) (offset (shape a) idx),
                nth_error (data b) (offset (shape b) idx) with
          | Some x, Some y => Some (f x y)
          | _, _ => None
          end in
        match mapM cell (indices s) with
        | Some d => Ok (mk_ndarray s d)
        | None => Raise (IndexError "index out of bounds")
        end
    end.
End Binop.

(** [a[cond] = v] with a boolean array [cond] of the shape of [a]. (numpy
    also takes a mask over the leading axes only; the source never builds
    one, and the model rejects it.) *)
Definition np_setmask {A : Type} (a : ndarray A) (cond : ndarray bool) (v : A)
  : result (ndarray A) :=
  if shape_eqb (shape a) (shape cond) then
    Ok (mk_ndarray (shape a)
          (map2 (fun old (c : bool) => if c then v else old) (data a) (data cond)))
  else Raise (IndexError "boolean index did not match indexed array").

(** ** [threshold] *)

Definition threshold_default_min : float :=
  Eval vm_compute in Prim2SF 0.1%float.
Definition threshold_default_max : float :=
  Eval vm_compute in Prim2SF 1.0%float.

(** The marker written into a mask: the int [1], stored in a float64 cell. *)
Definition marker : float := F64.of_int 1.

Definition default {A : Type} (d : A) (o : option A) : A :=
  match o with Some a => a | None => d end.

(** [None] for [min] or [max] stands for an argument the caller leaves out. *)
Definition threshold (index : ndarray float) (min max : option float)
  : result (ndarray float * ndarray float) :=
  let min := default threshold_default_min min in
  let max := default threshold_default_max max in
  (* Generate the vegetation mask *)
  let vegetation_mask := np_full (shape index) F64.nan in
  inside <- np_binop andb (np_map (fun v => F64.geb v min) index)
                          (np_map (fun v => F64.leb v max) index) ;;
  vegetation_mask <- np_setmask vegetation_mask inside marker ;;
  (* Generate the non-vegetation mask *)
  let non_vegetation_mask := np_full (shape index) F64.nan in
  outside <- np_binop orb (np_map (fun v => F64.ltb v min) index)
                          (np_map (fun v => F64.gtb v max) index) ;;
  non_vegetation_mask <- np_setmask non_vegetation_mask outside marker ;;
  Ok (vegetation_mask, non_vegetation_mask).

(** The index array [[0.05, 0.5, 1.5]] and the masks expected for it with the
    bounds 0.1 and 1.0. *)
Definition example_index : ndarray float :=
  Eval vm_compute in mk_ndarray [3%nat] (map Prim2SF [0.05; 0.5; 1.5]%float).
Definition example_vegetation_mask : ndarray float :=
  mk_ndarray [3%nat] [F64.nan; marker; F64.nan].
Definition example_non_vegetation_mask : ndarray float :=
  mk_ndarray [3%nat] [marker; F64.nan; marker].

(** ** [get_vegetation_index] *)

(** The float64 value of an unsigned integer sample. *)
Definition as_float (n : N) : float := F64.of_int (Z.of_N n).

(** [band.astype(float)] on a band of unsigned integer samples. *)
Definition astype_float (band : ndarray N) : ndarray float :=
  np_map as_float band.

(** [k * a] for a Python int [k] and a float64 array [a]. *)
Definition np_scale (k : Z) (a : ndarray float) : ndarray float :=
  np_map (F64.mul (F64.of_int k)) a.

(** [np.seterr(divide="ignore", invalid="ignore")] only silences numpy's
    warnings: a division by zero yields the IEEE result and never raises.
    [normalize] is accepted and not used. *)
Definition get_vegetation_index (blue green red : ndarray N)
    (index_type : string) (normalize : bool) : result (ndarray float) :=
  if (index_type =? "VARI")%string then
    num <- np_binop F64.sub (astype_float green) (astype_float red) ;;
    gr <- np_binop F64.add (astype_float green) (astype_float red) ;;
    den <- np_binop F64.sub gr (astype_float blue) ;;
    np_binop F64.div num den
  else if (index_type =? "GLI")%string then
    n1 <- np_binop F64.sub (np_scale 2 (astype_float green)) (astype_float red) ;;
    num <- np_binop F64.sub n1 (astype_float blue) ;;
    d1 <- np_binop F64.add (np_scale 2 (astype_float green)) (astype_float red) ;;
    den <- np_binop F64.add d1 (astype_float blue) ;;
    np_binop F64.div num den
  else if (index_type =? "RGRI")%string then
    np_binop F64.div (astype_float red) (astype_float green)
  else Raise (ValueError ("Unknown index type: " ++ index_type)).

(** The numerator and the denominator of one pixel, as the three formulas
    write them on the samples [b], [g], [r] of the blue, green and red
    bands; used to state what the array expressions compute. *)
Definition pixel_terms (index_type : string) (b g r : N)
  : option (float * float) :=
  let b := as_float b in
  let g := as_float g in
  let r := as_float r in
  if (index_type =? "VARI")%string then
    Some (F64.sub g r, F64.sub (F64.add g r) b)
  else if (index_type =? "GLI")%string then
    Some (F64.sub (F64.sub (F64.mul (F64.of_int 2) g) r) b,
          F64.add (F64.add (F64.mul (F64.of_int 2) g) r) b)
  else if (index_type =? "RGRI")%string then
    Some (r, g)
  else None.

(** Small rasters for the worked examples: a 2 x 2 band holding one sample
    everywhere, and a one-pixel band. *)
Definition const_band (n : N) : ndarray N :=
  mk_ndarray [2%nat; 2%nat] [n; n; n; n].
Definition pixel_band (n : N) : ndarray N := mk_ndarray [1%nat; 1%nat] [n].

(** ** Morphology and smoothing

    [cv2.morphologyEx] and [cv2.GaussianBlur] belong to OpenCV, and the band
    reader to rasterio; the pipeline is written over them. *)

Inductive morph_type : Type := MORPH_OPEN | MORPH_CLOSE.

(** [np.ones(dims, np.uint8)] *)
Definition np_ones (dims : list Z) : result (ndarray N) :=
  if forallb (fun d => 0 <=? d) dims
  then Ok (np_full (map Z.to_nat dims) 1%N)
  else Raise (ValueError "negative dimensions are not allowed").

Section Morphology.
Context {A : Type}.
Variable cv2_morphologyEx :
  ndarray A -> morph_type -> ndarray N -> result (ndarray A).

Definition morphological_operations (mask : ndarray A) (kernel_size : Z)
  : result (ndarray A) :=
  (* Define the structuring element for morphological operations *)
  opening_kernel <- np_ones [kernel_size; kernel_size] ;;
  closing_kernel <- np_ones [kernel_size; kernel_size] ;;
  (* Apply morphological operations to the mask *)
  opening <- cv2_morphologyEx mask MORPH_OPEN opening_kernel ;;
  closing <- cv2_morphologyEx opening MORPH_CLOSE closing_kernel ;;
  Ok closing.
End Morphology.

Section Pipeline.
(** [src.read(i)] on the dataset opened at a path, and [np.dstack]. *)
Variable rasterio_read : string -> Z -> result (ndarray N).
Variable np_dstack :
  ndarray N -> ndarray N -> ndarray N -> result (ndarray N).
Variable cv2_morphologyEx :
  ndarray float -> morph_type -> ndarray N -> result (ndarray float).
Variable cv2_GaussianBlur :
  ndarray float -> Z * Z -> float -> result (ndarray float).

Definition get_bands (image_path : string)
  : result (ndarray N * ndarray N * ndarray N * ndarray N) :=
  blue <- rasterio_read image_path 1 ;;
  green <- rasterio_read image_path 2 ;;
  red <- rasterio_read image_path 3 ;;
  rgb <- np_dstack blue green red ;;
  Ok (blue, green, red, rgb).

Definition smoothing (mask : ndarray float) (kernel_size : Z)
  : result (ndarray float) :=
  cv2_GaussianBlur mask (kernel_size, kernel_size) F64.one.

Definition default_index_min : float :=
  Eval vm_compute in Prim2SF 0.1%float.

Definition process_image (image_path : string) (zoom_level : Z)
    (index_min index_max : option float) (vegetation_index : option string)
  : result (ndarray float) :=
  (* Set default values if parameters are None *)
  let index_min :=
    match index_min with None => default_index_min | Some m => m end in
  let vegetation_index :=
    match vegetation_index with None => "VARI"%string | Some v => v end in
  (* Get the bands of the image *)
  bands <- get_bands image_path ;;
  let '(blue, green, red, rgb) := bands in
  (* Get GSD from zoom level *)
  gsd <- get_gsd_from_zoom zoom_level ;;
  (* Get the kernel size for morphological operations *)
  kernel_size <- get_kernel_size gsd ;;
  (* Calculate vegetation index *)
  veg_index <- get_vegetation_index blue green red vegetation_index true ;;
  (* Generate the vegetation and non-vegetation masks *)
  masks <- threshold veg_index (Some index_min) None ;;
  let vegetation_mask := fst masks in
  filtered_mask <-
    morphological_operations cv2_morphologyEx vegetation_mask kernel_size ;;
  smoothed_mask <- smoothing filtered_mask kernel_size ;;
  Ok smoothed_mask.

(** The pipeline with the upper threshold bound made explicit, for the
    comparison with [process_image]. *)
Definition process_image_with_upper (upper : float) (image_path : string)
    (zoom_level : Z) (index_min : float) (vegetation_index : string)
  : result (ndarray float) :=
  bands <- get_bands image_path ;;
  let '(blue, green, red, rgb) := bands in
  gsd <- get_gsd_from_zoom zoom_level ;;
  kernel_size <- get_kernel_size gsd ;;
  veg_index <- get_vegetation_index blue green red vegetation_index true ;;
  masks <- threshold veg_index (Some index_min) (Some upper) ;;
  filtered_mask <-
    morphological_operations cv2_morphologyEx (fst masks) kernel_size ;;
  smoothing filtered_mask kernel_size.
End Pipeline.

(** ** OpenCV's morphology on binary masks

    OpenCV is not part of the repository, which only calls it; its erosion
    and dilation are modelled here from section 4.5 of the specification
    and from the defaults the source leaves in place: the anchor at the
    kernel's centre, one iteration, and a border that never decides a
    minimum or a maximum. On a binary mask erosion is a conjunction and
    dilation a disjunction over the kernel's footprint. *)

(** A position of an [h] x [w] image. *)
Definition inside (h w : nat) (y x : Z) : bool :=
  (0 <=? y) && (y <? Z.of_nat h) && (0 <=? x) && (x <? Z.of_nat w).

(** The pixel of a mask with rows of width [w], row-major. *)
Definition lookup (m : ndarray bool) (w : nat) (y x : Z) : bool :=
  nth (Z.to_nat (y * Z.of_nat w + x)) (data m) false.

(** The [h] x [w] mask whose pixel at [(y, x)] is [f y x]. *)
Definition build (h w : nat) (f : Z -> Z -> bool) : ndarray bool :=
  mk_ndarray [h; w]
    (flat_map
       (fun i => map (fun j => f (Z.of_nat i) (Z.of_nat j)) (seq 0 w))
       (seq 0 h)).

(** Modelled from the spec: the footprint of a structuring element, which
    OpenCV computes and the repository does not; the displacements, from the
    anchor at the kernel's centre, of its non-zero cells. *)
Definition kernel_offsets (kernel : ndarray N) : list (Z * Z) :=
  match shape kernel with
  | [kh; kw] =>
      flat_map
        (fun a =>
           flat_map
             (fun b =>
                match nth_error (data kernel) (a * kw + b) with
                | Some (Npos _) =>
                    [(Z.of_nat a - Z.of_nat (kh / 2),
                      Z.of_nat b - Z.of_nat (kw / 2))]
                | _ => []
                end)
             (seq 0 kw))
        (seq 0 kh)
  | _ => []
  end.

Section BinaryMorphology.
Variables h w : nat.
Variable offsets : list (Z * Z).

(** Modelled from the spec: one pixel of OpenCV's erosion, absent from the
    repository; every pixel under the footprint that lies in the image is
    set. *)
Definition erode_px (f : Z -> Z -> bool) (y x : Z) : bool :=
  forallb
    (fun d => negb (inside h w (y + fst d) (x + snd d))
              || f (y + fst d) (x + snd d))
    offsets.

(** Modelled from the spec: one pixel of OpenCV's dilation, absent from the
    repository; some pixel under the footprint lies in the image and is
    set. *)
Definition dilate_px (f : Z -> Z -> bool) (y x : Z) : bool :=
  existsb
    (fun d => inside h w (y + fst d) (x + snd d)
              && f (y + fst d) (x + snd d))
    offsets.

(** Opening followed by closing, on pixel functions. *)
Definition open_close (f : Z -> Z -> bool) : Z -> Z -> bool :=
  erode_px (dilate_px (dilate_px (erode_px f))).

(** Pointwise order and equality of masks, on the positions of the image. *)
Definition mask_le (f g : Z -> Z -> bool) : Prop :=
  forall y x, inside h w y x = true -> f y x = true -> g y x = true.

Definition mask_eq (f g : Z -> Z -> bool) : Prop :=
  forall y x, inside h w y x = true -> f y x = g y x.
End BinaryMorphology.

(** Modelled from the spec: [cv2.erode], which OpenCV provides and the
    repository only calls; erosion with the structuring element [kernel],
    as section 4.5 describes the first half of an opening. *)
Definition cv2_erode (src : ndarray bool) (kernel : ndarray N)
  : result (ndarray bool) :=
  match shape src, shape kernel with
  | [h; w], [_; _] =>
      Ok (build h w (erode_px h w (kernel_offsets kernel) (lookup src w)))
  | _, _ => Raise (ExternalError "cv2.error")
  end.

(** Modelled from the spec: [cv2.dilate], which OpenCV provides and the
    repository only calls; dilation with the structuring element [kernel]. *)
Definition cv2_dilate (src : ndarray bool) (kernel : ndarray N)
  : result (ndarray bool) :=
  match shape src, shape kernel with
  | [h; w], [_; _] =>
      Ok (build h w (dilate_px h w (kernel_offsets kernel) (lookup src w)))
  | _, _ => Raise (ExternalError "cv2.error")
  end.

(** Modelled from the spec: [cv2.morphologyEx] on a binary mask, which
    OpenCV provides and the repository only calls. Opening is erosion
    followed by dilation, closing is dilation followed by erosion, both with
    the same structuring element. *)
Definition cv2_binary_morphologyEx (src : ndarray bool) (op : morph_type)
    (kernel : ndarray N) : result (ndarray bool) :=
  match op with
  | MORPH_OPEN => eroded <- cv2_erode src kernel ;; cv2_dilate eroded kernel
  | MORPH_CLOSE => dilated <- cv2_dilate src kernel ;; cv2_erode dilated kernel
  end.

(** A 5 x 5 mask with a 3 x 3 block and a speck. *)
Definition demo_mask : ndarray bool :=
  mk_ndarray [5; 5]%nat
    [ true;  true;  true;  false; false;
      true;  true;  true;  false; false;
      true;  true;  true;  false; true;
      false; false; false; false; false;
      false; false; false; false; false ].

(** The block alone: [demo_mask] after opening and closing with a 3 x 3
    kernel. *)
Definition demo_mask_cleaned : ndarray bool :=
  mk_ndarray [5; 5]%nat
    [ true;  true;  true;  false; false;
      true;  true;  true;  false; false;
      true;  true;  true;  false; false;
      false; false; false; false; false;
      false; false; false; false; false ].

(** ** Error messages *)

(** [str(n)] for an int. *)
Definition py_str_int (n : Z) : string :=
  NilZero.string_of_int (Z.to_int n).

(** A message names a value when the value's text occurs in it. *)
Definition names (value message : string) : Prop :=
  exists pre post, message = (pre ++ value ++ post)%string.

(** ** Collaborators for the worked examples

    A reader that returns constant 2 x 2 bands (blue 20, green 200, red 100)
    whatever the path, a [dstack] that interleaves the samples, and an
    OpenCV that leaves a mask as it is. *)
Definition demo_read (image_path : string) (band : Z) : result (ndarray N) :=
  if band =? 1 then Ok (const_band 20)
  else if band =? 2 then Ok (const_band 200)
  else if band =? 3 then Ok (const_band 100)
  else Raise (IndexError "band index out of range").

Definition demo_dstack (blue green red : ndarray N) : result (ndarray N) :=
  Ok (mk_ndarray (shape blue ++ [3%nat])
        (List.concat (map2 (fun b gr => b :: fst gr :: snd gr :: nil) (data blue)
                   (combine (data green) (data red))))).

Definition demo_morphologyEx (mask : ndarray float) (op : morph_type)
    (kernel : ndarray N) : result (ndarray float) := Ok mask.

Definition demo_GaussianBlur (mask : ndarray float) (ksize : Z * Z)
    (sigma : float) : result (ndarray float) := Ok mask.

(** ** Further notions used by the properties below *)

Definition is_infinite (x : float) : bool :=
  match x with S754_infinity _ => true | _ => false end.

(** ** [url_to_arr]

    [requests.get] and rasterio are the function's collaborators. The
    function returns either the array or the pair of the array and the
    colormap of band 1: the model returns the array with an optional
    colormap, beside the lines printed. One run of the body is modelled. *)

Record response : Type := mk_response {
  status_code : Z;
  content : list Byte.byte
}.

Section UrlToArr.
Context {Dataset Colormap : Type}.
Variable requests_get : string -> result response.
Variable rasterio_open : list Byte.byte -> result Dataset.
Variable dataset_read : Dataset -> result (ndarray N).
Variable dataset_colormap : Dataset -> Z -> result Colormap.

Definition url_to_arr (url : string) (return_colormap : bool)
  : list string * result (ndarray N * option Colormap) :=
  match requests_get url with
  | Raise e => ([], Raise e)
  | Ok response =>
      ([py_str_int (status_code response)],
       dataset <- rasterio_open (content response) ;;
       if return_colormap then
         arr <- dataset_read dataset ;;
         colormap <- dataset_colormap dataset 1 ;;
         Ok (arr, Some colormap)
       else
         arr <- dataset_read dataset ;;
         Ok (arr, None))
  end.
End UrlToArr.

(** Collaborators for the worked examples of [url_to_arr]: a server that
    answers 404 or 200 with the same three bytes, and a dataset that is its
    bytes, read as one band. *)
Definition demo_body : list Byte.byte := [Byte.x01; Byte.x02; Byte.x03].
Definition demo_get_404 (url : string) : result response :=
  Ok (mk_response 404 demo_body).
Definition demo_get_200 (url : string) : result response :=
  Ok (mk_response 200 demo_body).
Definition demo_open (bytes : list Byte.byte) : result (list Byte.byte) :=
  Ok bytes.
Definition demo_dataset_read (ds : list Byte.byte) : result (ndarray N) :=
  Ok (mk_ndarray [1; 1; List.length ds]%nat (map Byte.to_N ds)).
Definition demo_colormap (ds : list Byte.byte) (band : Z) : result nat :=
  Ok (List.length ds).

(** A reader that finds no file. *)
Definition failing_read (image_path : string) (band : Z)
  : result (ndarray N) := Raise (ExternalError "No such file or directory").

(** The kernel size the pipeline derives from a zoom level. *)
Definition kernel_size_of (zoom_level : Z) : result Z :=
  gsd <- get_gsd_from_zoom zoom_level ;; get_kernel_size gsd.

(** * Properties *)

(** ** Facts about binary64 operations *)

Lemma binary_round_aux_sign (s : bool) (m e : Z) (l : location) :
  match binary_round_aux F64.prec F64.emax s m e l with
  | S754_zero s' | S754_infinity s' | S754_finite s' _ _ => s' = s
  | S754_nan => True
  end.
Proof.
  unfold binary_round_aux.
  destruct (shr_fexp F64.prec F64.emax m e l) as [mrs' e'].
  destruct (shr_fexp F64.prec F64.emax _ e' loc_Exact) as [mrs'' e''].
  destruct (shr_m mrs'') as [|p|p]; [reflexivity| |exact I].
  destruct (e'' <=? F64.emax - F64.prec); reflexivity.
Qed.

(** The sign of a quotient is the exclusive or of the operands' signs. *)
Lemma div_signbit (x y : float) :
  F64.is_nan (F64.div x y) = false ->
  F64.signbit (F64.div x y) = xorb (F64.signbit x) (F64.signbit y).
Proof.
  destruct x as [sx|sx| |sx mx ex], y as [sy|sy| |sy my ey];
    simpl; try reflexivity; try discriminate.
  unfold F64.div, SFdiv.
  destruct (SFdiv_core_binary F64.prec F64.emax (Z.pos mx) ex (Z.pos my) ey)
    as [[mz ez] lz].
  pose proof (binary_round_aux_sign (xorb sx sy) mz ez lz) as H.
  destruct (binary_round_aux F64.prec F64.emax (xorb sx sy) mz ez lz);
    simpl; intros; try discriminate; assumption.
Qed.

(** Division by a zero of either sign: NaN for a zero or NaN dividend, an
    infinity otherwise. *)
Lemma div_by_zero (n d : float) :
  F64.is_zero d = true ->
  F64.div n d =
    if F64.is_zero n || F64.is_nan n then F64.nan
    else S754_infinity (xorb (F64.signbit n) (F64.signbit d)).
Proof.
  destruct d; try discriminate. intros _. destruct n; reflexivity.
Qed.

Lemma compare_antisym (x y : float) :
  SFcompare y x = option_map CompOpp (SFcompare x y).
Proof.
  destruct x as [sx|sx| |sx mx ex], y as [sy|sy| |sy my ey]; simpl;
    try reflexivity;
    try (destruct sx; reflexivity); try (destruct sy; reflexivity);
    try (destruct sx, sy; reflexivity).
  f_equal. rewrite (Z.compare_antisym ex ey).
  change (PosDef.Pos.compare_cont Eq my mx)
    with (Pos.compare_cont (CompOpp Eq) my mx).
  rewrite <- (Pos.compare_cont_antisym mx my Eq).
  change (PosDef.Pos.compare_cont Eq mx my) with (Pos.compare_cont Eq mx my).
  destruct sx, sy; try reflexivity;
    destruct (ex ?= ey); simpl; try reflexivity;
    destruct (Pos.compare_cont Eq mx my); reflexivity.
Qed.

(** On numbers, [x <= y] fails exactly when [y < x]. *)
Lemma leb_ltb_numbers (x y : float) :
  F64.is_nan x = false -> F64.is_nan y = false ->
  F64.leb x y = negb (F64.ltb y x).
Proof.
  intros Hx Hy. unfold F64.leb, F64.ltb, SFleb, SFltb.
  rewrite (compare_antisym x y).
  destruct x, y; try discriminate; simpl;
    match goal with
    | |- context [match ?c with _ => _ end] => destruct c; reflexivity
    | _ => reflexivity
    end.
Qed.

(** No order comparison holds when an operand is NaN. *)
Lemma compare_nan_false (x : float) :
  F64.leb x F64.nan = false /\ F64.leb F64.nan x = false /\
  F64.ltb x F64.nan = false /\ F64.ltb F64.nan x = false.
Proof. destruct x; repeat split; reflexivity. Qed.

(** [x <= y] and [y < x] never hold together. *)
Lemma leb_ltb_exclusive (x y : float) :
  F64.leb x y = true -> F64.ltb y x = false.
Proof.
  unfold F64.leb, F64.ltb, SFleb, SFltb. rewrite (compare_antisym x y).
  destruct (SFcompare x y) as [[| |]|]; simpl; congruence.
Qed.

(** [int] truncates toward zero. *)
Lemma py_int_truncates (q : float) (n : Z) :
  py_int q = Ok n -> truncation_of q n.
Proof.
  destruct q as [s|s| |s m e]; simpl; try discriminate.
  - intros [= <-]. reflexivity.
  - intros [= <-]. destruct (Z.le_gt_cases 0 e) as [He|He].
    + rewrite Z.max_l, Z.max_r by lia. rewrite Z.shiftl_mul_pow2 by lia.
      change (2 ^ 0) with 1. rewrite Z.quot_1_r.
      destruct s; unfold cond_Zopp; [|reflexivity].
      change (Z.neg m) with (- Z.pos m). rewrite Z.mul_opp_l. reflexivity.
    + rewrite Z.max_r, Z.max_l by lia. rewrite Z.shiftl_div_pow2 by lia.
      change (2 ^ 0) with 1. rewrite Z.mul_1_r.
      assert (Hp : 0 < 2 ^ (- e)) by (apply Z.pow_pos_nonneg; lia).
      destruct s; unfold cond_Zopp.
      * change (Z.neg m) with (- Z.pos m). rewrite Z.quot_opp_l by lia.
        rewrite Z.quot_div_nonneg by lia. reflexivity.
      * rewrite Z.quot_div_nonneg by lia. reflexivity.
Qed.

Lemma odd_adjust (n : Z) :
  Z.odd (if n mod 2 =? 0 then n + 1 else n) = true.
Proof.
  pose proof (Zmod_odd n) as Hn.
  destruct (Z.eqb_spec (n mod 2) 0) as [H0|H0].
  - replace (n + 1) with (Z.succ n) by lia. rewrite Z.odd_succ.
    rewrite <- Z.negb_odd. destruct (Z.odd n); [lia|reflexivity].
  - destruct (Z.odd n); [reflexivity|lia].
Qed.

Lemma mod2_even (n : Z) : (n mod 2 =? 0) = Z.even n.
Proof.
  rewrite Zmod_even. destruct (Z.even n); reflexivity.
Qed.

(** The integer part of a finite quotient has the sign of the quotient. *)
Lemma py_int_finite (q : float) :
  F64.is_finite q = true ->
  exists n, py_int q = Ok n /\
            (F64.signbit q = false -> 0 <= n) /\
            (F64.signbit q = true -> n <= 0).
Proof.
  destruct q as [s|s| |s m e]; try discriminate; intros _.
  - exists 0. simpl. repeat split; lia.
  - exists (cond_Zopp s (Z.shiftl (Zpos m) e)). split; [reflexivity|].
    assert (H : 0 <= Z.shiftl (Z.pos m) e) by (apply Z.shiftl_nonneg; lia).
    simpl. split; intros ->; simpl; lia.
Qed.

Lemma table_length : List.length gsd_meters_per_pixel = 24%nat.
Proof. reflexivity. Qed.

(** The source's literals are the documented decimal constants. *)
Lemma table_documented :
  gsd_meters_per_pixel = map documented_gsd (map Z.of_nat (seq 0 24)).
Proof. vm_compute. reflexivity. Qed.

(** ** C4: the zoom table *)

(** C4. For every integer zoom level in [0, 23], [get_gsd_from_zoom] returns
    exactly the documented constant of the 24-entry table, 156412.0 at level
    0 down to 0.02 at level 23; for every integer outside [0, 23], such as 24
    and -1, it fails with a [ValueError] (InvalidArgument) and returns no
    value. *)
Theorem get_gsd_from_zoom_table (zoom_level : Z) :
  (0 <= zoom_level <= 23 ->
   get_gsd_from_zoom zoom_level = Ok (documented_gsd zoom_level)) /\
  (zoom_level < 0 \/ 23 < zoom_level ->
   exists e, get_gsd_from_zoom zoom_level = Raise e /\
             is_InvalidArgument e = true) /\
  get_gsd_from_zoom 0 = Ok (F64.decimal 1564120 1) /\
  get_gsd_from_zoom 23 = Ok (F64.decimal 2 2) /\
  is_ok (get_gsd_from_zoom 24) = false /\
  is_ok (get_gsd_from_zoom (-1)) = false.
Proof.
  split; [|split; [|repeat split; vm_compute; reflexivity]].
  - intros H.
    assert (Hn : exists n, (n < 24)%nat /\ zoom_level = Z.of_nat n).
    { exists (Z.to_nat zoom_level). split; lia. }
    destruct Hn as (n & Hlt & ->).
    do 24 (destruct n as [|n]; [vm_compute; reflexivity|]). lia.
  - intros H. exists (ValueError invalid_zoom_message). split; [|reflexivity].
    unfold get_gsd_from_zoom. rewrite table_length.
    replace ((0 <=? zoom_level) && (zoom_level <? Z.of_nat 24)) with false;
      [reflexivity|].
    symmetry. apply andb_false_iff.
    destruct H; [left; apply Z.leb_gt|right; apply Z.ltb_ge]; lia.
Qed.

Lemma get_gsd_from_zoom_table_witness :
  get_gsd_from_zoom 15 = Ok (documented_gsd 15) /\
  exists e, get_gsd_from_zoom 24 = Raise e /\ is_InvalidArgument e = true.
Proof.
  split.
  - apply (proj1 (get_gsd_from_zoom_table 15)). lia.
  - apply (proj1 (proj2 (get_gsd_from_zoom_table 24))). right. lia.
Defined.

(** ** C5 and C7: kernel sizing *)

(** The kernel sizes of the zoom levels 15, 18 and 23. *)
Example kernel_sizes_of_the_table :
  (gsd <- get_gsd_from_zoom 15 ;; get_kernel_size gsd) = Ok 1 /\
  (gsd <- get_gsd_from_zoom 18 ;; get_kernel_size gsd) = Ok 3 /\
  (gsd <- get_gsd_from_zoom 23 ;; get_kernel_size gsd) = Ok 101.
Proof. repeat split; vm_compute; reflexivity. Qed.

(** C5, as the source has it. For every finite gsd > 0 whose quotient
    [2 / gsd] is finite, [get_kernel_size] truncates that quotient toward
    zero to an integer [n >= 0] and adds 1 exactly when [n] is even, so the
    result is odd and at least 1; [get_kernel_size 1.0 = 3] and
    [get_kernel_size 3.0 = 1]. *)
Theorem get_kernel_size_odd (gsd : float) :
  F64.is_finite gsd = true ->
  F64.ltb F64.zero gsd = true ->
  F64.is_finite (F64.div (F64.of_int 2) gsd) = true ->
  (exists n k,
      py_int (F64.div (F64.of_int 2) gsd) = Ok n /\
      truncation_of (F64.div (F64.of_int 2) gsd) n /\ 0 <= n /\
      get_kernel_size gsd = Ok k /\
      k = (if Z.even n then n + 1 else n) /\
      Z.odd k = true /\ 1 <= k) /\
  get_kernel_size F64.one = Ok 3 /\
  get_kernel_size (F64.decimal 30 1) = Ok 1.
Proof.
  intros Hfin Hpos Hq. split; [|split; vm_compute; reflexivity].
  assert (Hz : F64.is_zero gsd = false).
  { destruct gsd; try reflexivity; discriminate. }
  assert (Hs : F64.signbit gsd = false).
  { destruct gsd as [s|s| |s m e]; try discriminate.
    destruct s; [discriminate|reflexivity]. }
  assert (Hqs : F64.signbit (F64.div (F64.of_int 2) gsd) = false).
  { rewrite div_signbit.
    - rewrite Hs. reflexivity.
    - destruct (F64.div (F64.of_int 2) gsd); try reflexivity; discriminate. }
  destruct (py_int_finite _ Hq) as (n & Hn & Hnonneg & _).
  specialize (Hnonneg Hqs).
  exists n, (if n mod 2 =? 0 then n + 1 else n).
  split; [exact Hn|]. split; [apply py_int_truncates; exact Hn|].
  split; [exact Hnonneg|].
  split.
  { unfold get_kernel_size, py_truediv. rewrite Hz. cbn [bind].
    rewrite Hn. reflexivity. }
  split; [rewrite mod2_even; reflexivity|].
  split; [apply odd_adjust|].
  destruct (n mod 2 =? 0) eqn:E; [clear - Hnonneg; lia|].
  destruct (Z.eq_dec n 0) as [->|Hne]; [discriminate E|lia].
Qed.

Lemma get_kernel_size_odd_witness :
  exists n k,
    py_int (F64.div (F64.of_int 2) F64.one) = Ok n /\
    truncation_of (F64.div (F64.of_int 2) F64.one) n /\ 0 <= n /\
    get_kernel_size F64.one = Ok k /\
    k = (if Z.even n then n + 1 else n) /\
    Z.odd k = true /\ 1 <= k.
Proof.
  apply (proj1 (get_kernel_size_odd F64.one
                  eq_refl eq_refl eq_refl)).
Defined.

(** A finite positive gsd on which [get_kernel_size] returns no integer: the
    quotient [2 / 1e-309] overflows to infinity, and [int] raises. *)
Lemma get_kernel_size_overflow :
  valid_binary F64.prec F64.emax tiny_gsd = true /\
  F64.is_finite tiny_gsd = true /\
  F64.ltb F64.zero tiny_gsd = true /\
  get_kernel_size tiny_gsd =
    Raise (OverflowError "cannot convert float infinity to integer") /\
  ~ (forall gsd, F64.is_finite gsd = true -> F64.ltb F64.zero gsd = true ->
       exists k, get_kernel_size gsd = Ok k /\ Z.odd k = true /\ 1 <= k).
Proof.
  repeat split; try (vm_compute; reflexivity).
  intros H. destruct (H tiny_gsd eq_refl eq_refl) as (k & Hk & _).
  vm_compute in Hk. discriminate.
Qed.

(** C7, as the source has it. [get_kernel_size] does not validate its
    argument: a zero gsd of either sign makes the division raise
    [ZeroDivisionError], and a negative gsd whose quotient [2 / gsd] is
    finite yields an odd integer that is at most 1. *)
Theorem get_kernel_size_nonpositive (gsd : float) :
  (F64.is_zero gsd = true ->
   get_kernel_size gsd = Raise (ZeroDivisionError "float division by zero")) /\
  (F64.ltb gsd F64.zero = true ->
   F64.is_finite (F64.div (F64.of_int 2) gsd) = true ->
   exists k, get_kernel_size gsd = Ok k /\ Z.odd k = true /\ k <= 1).
Proof.
  split.
  - intros Hz. unfold get_kernel_size, py_truediv. rewrite Hz. reflexivity.
  - intros Hneg Hq.
    assert (Hz : F64.is_zero gsd = false).
    { destruct gsd; try reflexivity; discriminate. }
    assert (Hs : F64.signbit gsd = true).
    { destruct gsd as [s|s| |s m e]; try discriminate;
        destruct s; try discriminate; reflexivity. }
    assert (Hqs : F64.signbit (F64.div (F64.of_int 2) gsd) = true).
    { rewrite div_signbit.
      - rewrite Hs. reflexivity.
      - destruct (F64.div (F64.of_int 2) gsd); try reflexivity; discriminate. }
    destruct (py_int_finite _ Hq) as (n & Hn & _ & Hnonpos).
    specialize (Hnonpos Hqs).
    exists (if n mod 2 =? 0 then n + 1 else n).
    split.
    { unfold get_kernel_size, py_truediv. rewrite Hz. cbn [bind].
      rewrite Hn. reflexivity. }
    split; [apply odd_adjust|].
    destruct (n mod 2 =? 0) eqn:E; lia.
Qed.

Lemma get_kernel_size_nonpositive_witness :
  get_kernel_size (S754_zero true) =
    Raise (ZeroDivisionError "float division by zero") /\
  exists k, get_kernel_size minus_one = Ok k /\ Z.odd k = true /\ k <= 1.
Proof.
  split.
  - apply (proj1 (get_kernel_size_nonpositive (S754_zero true))). reflexivity.
  - apply (proj2 (get_kernel_size_nonpositive minus_one)); reflexivity.
Defined.

(** A negative gsd is not rejected: [get_kernel_size (-1.0)] returns -1. *)
Lemma get_kernel_size_negative_accepted :
  F64.leb minus_one F64.zero = true /\
  get_kernel_size minus_one = Ok (-1) /\
  ~ (forall gsd, F64.leb gsd F64.zero = true ->
       exists e, get_kernel_size gsd = Raise e /\ is_InvalidArgument e = true).
Proof.
  repeat split; try (vm_compute; reflexivity).
  intros H. destruct (H minus_one eq_refl) as (e & He & _).
  vm_compute in He. discriminate.
Qed.

(** ** Cell-wise reading of the array operations *)

(** Broadcasting stretches an axis of extent 1, aligns a shorter shape on
    the last axis, and rejects other mismatches. *)
Example np_binop_broadcasts :
  np_binop Nat.add (mk_ndarray [1; 3]%nat [1; 2; 3]%nat)
                   (mk_ndarray [2; 1]%nat [10; 20]%nat) =
    Ok (mk_ndarray [2; 3]%nat [11; 12; 13; 21; 22; 23]%nat) /\
  np_binop Nat.add (mk_ndarray [3]%nat [1; 2; 3]%nat)
                   (mk_ndarray [2; 3]%nat [10; 20; 30; 40; 50; 60]%nat) =
    Ok (mk_ndarray [2; 3]%nat [11; 22; 33; 41; 52; 63]%nat) /\
  np_binop Nat.add (mk_ndarray [2]%nat [1; 2]%nat)
                   (mk_ndarray [2; 3]%nat [10; 20; 30; 40; 50; 60]%nat) =
    Raise (ValueError
             "operands could not be broadcast together with shapes (2,) (2,3) ").
Proof. repeat split; reflexivity. Qed.

Lemma shape_eqb_refl (s : list nat) : shape_eqb s s = true.
Proof.
  unfold shape_eqb. destruct (list_eq_dec Nat.eq_dec s s); congruence.
Qed.

Section CellLemmas.
Context {A B C : Type}.

Lemma np_binop_same_shape (f : A -> B -> C) (a : ndarray A) (b : ndarray B) :
  shape a = shape b ->
  np_binop f a b = Ok (mk_ndarray (shape a) (map2 f (data a) (data b))).
Proof.
  intros H. unfold np_binop. rewrite H, shape_eqb_refl. reflexivity.
Qed.

Lemma nth_error_map2 (f : A -> B -> C) (xs : list A) (ys : list B)
      (i : nat) (x : A) (y : B) :
  nth_error xs i = Some x -> nth_error ys i = Some y ->
  nth_error (map2 f xs ys) i = Some (f x y).
Proof.
  revert ys i. induction xs as [|x0 xs IH]; intros [|y0 ys] [|i];
    simpl; try discriminate.
  - intros [= ->] [= ->]. reflexivity.
  - intros Hx Hy. exact (IH ys i Hx Hy).
Qed.

Lemma map2_length (f : A -> B -> C) (xs : list A) (ys : list B) :
  List.length (map2 f xs ys) = Nat.min (List.length xs) (List.length ys).
Proof.
  unfold map2. rewrite length_map, length_combine. reflexivity.
Qed.

Lemma map2_repeat_l (f : A -> B -> C) (v : A) (n : nat) (ys : list B) :
  List.length ys = n ->
  map2 f (repeat v n) ys = map (f v) ys.
Proof.
  intros <-. induction ys as [|y ys IH]; [reflexivity|].
  simpl. unfold map2 in *. simpl. rewrite IH. reflexivity.
Qed.
End CellLemmas.

Lemma map2_map_same {A B C D : Type} (f : B -> C -> D) (g : A -> B)
      (h : A -> C) (l : list A) :
  map2 f (map g l) (map h l) = map (fun x => f (g x) (h x)) l.
Proof.
  induction l as [|x l IH]; [reflexivity|].
  unfold map2 in *. simpl. rewrite IH. reflexivity.
Qed.

Lemma marker_not_nan : marker <> F64.nan.
Proof. vm_compute. discriminate. Qed.

(** The two masks, as one map over the cells of the index. *)
Lemma threshold_cells (index : ndarray float) (min max : float) :
  wf_ndarray index ->
  threshold index (Some min) (Some max) =
    Ok (mk_ndarray (shape index)
          (map (fun v => if F64.geb v min && F64.leb v max
                         then marker else F64.nan) (data index)),
        mk_ndarray (shape index)
          (map (fun v => if F64.ltb v min || F64.gtb v max
                         then marker else F64.nan) (data index))).
Proof.
  intros Hwf. unfold threshold, default.
  rewrite np_binop_same_shape by reflexivity. cbn [bind].
  unfold np_setmask, np_full. cbn [shape data np_map].
  rewrite shape_eqb_refl. cbn [bind].
  rewrite np_binop_same_shape by reflexivity. cbn [bind shape data].
  rewrite shape_eqb_refl. cbn [bind].
  cbn [shape data np_map].
  rewrite !map2_map_same. red in Hwf.
  rewrite !map2_repeat_l by (rewrite length_map; exact Hwf).
  rewrite !map_map. reflexivity.
Qed.

(** What one cell of the index puts into the two masks. *)
Lemma threshold_cell_cases (v min max cv cn : float) :
  cv = (if F64.geb v min && F64.leb v max then marker else F64.nan) ->
  cn = (if F64.ltb v min || F64.gtb v max then marker else F64.nan) ->
  (F64.leb min v = true /\ F64.leb v max = true ->
   cv = marker /\ cn = F64.nan) /\
  (F64.ltb v min = true \/ F64.ltb max v = true ->
   cn = marker /\ cv = F64.nan) /\
  (F64.is_nan v = true -> cv = F64.nan /\ cn = F64.nan) /\
  (cv = marker -> F64.leb min v = true /\ F64.leb v max = true) /\
  (cn = marker -> F64.ltb v min = true \/ F64.ltb max v = true) /\
  (F64.is_nan v = false -> F64.is_nan min = false ->
   F64.is_nan max = false -> cv = marker \/ cn = marker).
Proof.
  intros -> ->. unfold F64.geb, F64.gtb.
  change (SFleb min v) with (F64.leb min v).
  change (SFltb max v) with (F64.ltb max v).
  pose proof (leb_ltb_exclusive min v) as E1.
  pose proof (leb_ltb_exclusive v max) as E2.
  pose proof marker_not_nan as Hm.
  assert (N1 : F64.is_nan v = true ->
               F64.leb min v = false /\ F64.ltb v min = false /\
               F64.ltb max v = false).
  { destruct v; try discriminate. intros _.
    destruct min, max; repeat split; reflexivity. }
  assert (N2 : F64.is_nan v = false -> F64.is_nan min = false ->
               F64.is_nan max = false ->
               F64.leb min v = negb (F64.ltb v min) /\
               F64.leb v max = negb (F64.ltb max v)).
  { intros Hv Hmin Hmax. split; apply leb_ltb_numbers; assumption. }
  destruct (F64.leb min v), (F64.leb v max), (F64.ltb v min),
    (F64.ltb max v); simpl in *;
    repeat split; intros;
    repeat match goal with
           | H : _ /\ _ |- _ => destruct H
           | H : _ \/ _ |- _ => destruct H
           end;
    try congruence;
    try (specialize (E1 eq_refl); congruence);
    try (specialize (E2 eq_refl); congruence);
    try (destruct N1 as (? & ? & ?); [assumption|congruence]);
    try (destruct N2 as (? & ?); [assumption..|]; simpl in *; congruence);
    auto.
Qed.

(** ** C1: thresholding *)

(** C1. For every index array and bounds min and max, [threshold] returns
    two arrays of the shape of the input. A cell with [min <= v <= max]
    holds the marker 1 in the vegetation mask and the sentinel NaN in the
    other mask; a cell with [v < min] or [v > max] holds the marker in the
    non-vegetation mask and the sentinel in the vegetation mask; a NaN cell
    holds the sentinel in both; a marker appears nowhere else; and when the
    cell and both bounds are numbers the cell is marked in one of the masks.
    The marker is the float 1.0.
    On [[0.05, 0.5, 1.5]] with bounds 0.1 and 1.0 (also as defaults) the
    masks are [[nan, 1, nan]] and [[1, nan, 1]]. *)
Theorem threshold_masks (index : ndarray float) (min max : float) :
  wf_ndarray index ->
  (exists veg nonveg,
     threshold index (Some min) (Some max) = Ok (veg, nonveg) /\
     shape veg = shape index /\ shape nonveg = shape index /\
     wf_ndarray veg /\ wf_ndarray nonveg /\
     forall i v, nth_error (data index) i = Some v ->
       exists cv cn,
         nth_error (data veg) i = Some cv /\
         nth_error (data nonveg) i = Some cn /\
         (F64.leb min v = true /\ F64.leb v max = true ->
          cv = marker /\ cn = F64.nan) /\
         (F64.ltb v min = true \/ F64.ltb max v = true ->
          cn = marker /\ cv = F64.nan) /\
         (F64.is_nan v = true -> cv = F64.nan /\ cn = F64.nan) /\
         (cv = marker -> F64.leb min v = true /\ F64.leb v max = true) /\
         (cn = marker -> F64.ltb v min = true \/ F64.ltb max v = true) /\
         (F64.is_nan v = false -> F64.is_nan min = false ->
          F64.is_nan max = false -> cv = marker \/ cn = marker)) /\
  threshold example_index
      (Some threshold_default_min) (Some threshold_default_max) =
    Ok (example_vegetation_mask, example_non_vegetation_mask) /\
  threshold example_index None None =
    Ok (example_vegetation_mask, example_non_vegetation_mask) /\
  marker = F64.one /\ F64.one = F64.decimal 10 1 /\
  threshold
      (mk_ndarray [3%nat] [F64.decimal 5 2; F64.decimal 5 1; F64.decimal 15 1])
      (Some (F64.decimal 1 1)) (Some (F64.decimal 10 1)) =
    Ok (mk_ndarray [3%nat] [F64.nan; F64.one; F64.nan],
        mk_ndarray [3%nat] [F64.one; F64.nan; F64.one]) /\
  threshold
      (mk_ndarray [3%nat] [F64.decimal 5 2; F64.decimal 5 1; F64.decimal 15 1])
      None None =
    Ok (mk_ndarray [3%nat] [F64.nan; F64.one; F64.nan],
        mk_ndarray [3%nat] [F64.one; F64.nan; F64.one]).
Proof.
  intros Hwf. split; [|repeat split; vm_compute; reflexivity].
  rewrite (threshold_cells index min max Hwf).
  eexists. eexists. split; [reflexivity|].
  cbn [shape data]. split; [reflexivity|]. split; [reflexivity|].
  split; [red; cbn [shape data]; rewrite length_map; exact Hwf|].
  split; [red; cbn [shape data]; rewrite length_map; exact Hwf|].
  intros i v Hv.
  eexists. eexists.
  split; [apply map_nth_error; exact Hv|].
  split; [apply map_nth_error; exact Hv|].
  apply threshold_cell_cases; reflexivity.
Qed.

Lemma threshold_masks_witness :
  exists veg nonveg,
    threshold example_index (Some threshold_default_min)
      (Some threshold_default_max) = Ok (veg, nonveg) /\
    shape veg = shape example_index /\ shape nonveg = shape example_index.
Proof.
  destruct (proj1 (threshold_masks example_index threshold_default_min
                     threshold_default_max eq_refl))
    as (veg & nonveg & H & Hs1 & Hs2 & _).
  exists veg, nonveg. repeat split; assumption.
Defined.

(** ** C2 and C3: the index calculator *)

(** On bands of one shape every known index type yields an array of that
    shape whose cell at each position is the quotient of that pixel's
    numerator and denominator. *)
Lemma get_vegetation_index_pixels (blue green red : ndarray N)
      (index_type : string) (normalize : bool) :
  shape blue = shape green -> shape red = shape green ->
  In index_type ["VARI"; "GLI"; "RGRI"]%string ->
  exists idx,
    get_vegetation_index blue green red index_type normalize = Ok idx /\
    shape idx = shape green /\
    (wf_ndarray blue -> wf_ndarray green -> wf_ndarray red ->
     wf_ndarray idx) /\
    forall i b g r,
      nth_error (data blue) i = Some b ->
      nth_error (data green) i = Some g ->
      nth_error (data red) i = Some r ->
      exists num den,
        pixel_terms index_type b g r = Some (num, den) /\
        nth_error (data idx) i = Some (F64.div num den).
Proof.
  intros Hb Hr Hin.
  assert (Hgr : shape green = shape red) by congruence.
  assert (Hgb : shape green = shape blue) by congruence.
  assert (Hwf : forall d : list float,
             List.length d =
               Nat.min (List.length (data blue))
                 (Nat.min (List.length (data green)) (List.length (data red)))
             \/ List.length d =
                  Nat.min (List.length (data red)) (List.length (data green)) ->
             wf_ndarray blue -> wf_ndarray green -> wf_ndarray red ->
             List.length d = size_of (shape green)).
  { unfold wf_ndarray. rewrite Hb, Hr. intros d Hd Wb Wg Wr.
    rewrite Wb, Wg, Wr in Hd. destruct Hd; lia. }
  destruct Hin as [<-|[<-|[<-|[]]]]; unfold get_vegetation_index.
  - rewrite String.eqb_refl.
    repeat (rewrite np_binop_same_shape
              by first [exact Hgr | exact Hgb | reflexivity]; cbn [bind]).
    eexists. split; [reflexivity|]. split; [reflexivity|].
    split.
    { intros Wb Wg Wr. red. cbn [data shape astype_float np_map].
      apply Hwf; try assumption. left.
      rewrite !map2_length, !length_map. lia. }
    intros i b g r Hib Hig Hir. eexists. eexists.
    split; [reflexivity|]. cbn [data shape astype_float np_map].
    repeat apply nth_error_map2; apply map_nth_error; assumption.
  - change (("GLI" =? "VARI")%string) with false. rewrite String.eqb_refl.
    cbv iota.
    repeat (rewrite np_binop_same_shape
              by first [exact Hgr | exact Hgb | reflexivity]; cbn [bind]).
    eexists. split; [reflexivity|]. split; [reflexivity|].
    split.
    { intros Wb Wg Wr. red. cbn [data shape astype_float np_map np_scale].
      apply Hwf; try assumption. left.
      rewrite !map2_length, !length_map. lia. }
    intros i b g r Hib Hig Hir. eexists. eexists.
    split; [reflexivity|]. cbn [data shape astype_float np_map np_scale].
    repeat apply nth_error_map2; try (apply map_nth_error; assumption).
    + rewrite map_map. apply (map_nth_error (fun n => _)). assumption.
    + rewrite map_map. apply (map_nth_error (fun n => _)). assumption.
  - change (("RGRI" =? "VARI")%string) with false.
    change (("RGRI" =? "GLI")%string) with false. rewrite String.eqb_refl.
    cbv iota.
    rewrite np_binop_same_shape by (symmetry; exact Hgr).
    eexists. split; [reflexivity|]. split; [exact Hr|].
    split.
    { intros Wb Wg Wr. red. cbn [data shape astype_float np_map].
      rewrite Hr. apply Hwf; try assumption. right.
      rewrite !map2_length, !length_map. lia. }
    intros i b g r Hib Hig Hir. eexists. eexists.
    split; [reflexivity|]. cbn [data shape astype_float np_map].
    apply nth_error_map2; apply map_nth_error; assumption.
Qed.

(** C2. For every triple of same-shaped band arrays, [get_vegetation_index]
    turns every sample into a float before any arithmetic and computes, per
    pixel, VARI = (green - red) / (green + red - blue), GLI = (2 green - red
    - blue) / (2 green + red + blue) and RGRI = red / green, in an array of
    the bands' shape. The arithmetic is on floats: on the pixel (blue,
    green, red) = (0, 10, 20) VARI is -1/3, with no unsigned wrap-around,
    and RGRI is 2, and on red 1, green 2 RGRI is 0.5. *)
Theorem get_vegetation_index_formulas (blue green red : ndarray N)
        (normalize : bool) :
  shape blue = shape green -> shape red = shape green ->
  (exists vari gli rgri,
     get_vegetation_index blue green red "VARI" normalize = Ok vari /\
     get_vegetation_index blue green red "GLI" normalize = Ok gli /\
     get_vegetation_index blue green red "RGRI" normalize = Ok rgri /\
     shape vari = shape green /\ shape gli = shape green /\
     shape rgri = shape green /\
     forall i b g r,
       nth_error (data blue) i = Some b ->
       nth_error (data green) i = Some g ->
       nth_error (data red) i = Some r ->
       let fb := as_float b in
       let fg := as_float g in
       let fr := as_float r in
       let two := F64.of_int 2 in
       nth_error (data vari) i =
         Some (F64.div (F64.sub fg fr) (F64.sub (F64.add fg fr) fb)) /\
       nth_error (data gli) i =
         Some (F64.div (F64.sub (F64.sub (F64.mul two fg) fr) fb)
                       (F64.add (F64.add (F64.mul two fg) fr) fb)) /\
       nth_error (data rgri) i = Some (F64.div fr fg)) /\
  get_vegetation_index (pixel_band 0) (pixel_band 10) (pixel_band 20)
      "VARI" normalize =
    Ok (mk_ndarray [1; 1]%nat [F64.div (F64.of_int (-1)) (F64.of_int 3)]) /\
  get_vegetation_index (pixel_band 0) (pixel_band 10) (pixel_band 20)
      "RGRI" normalize =
    Ok (mk_ndarray [1; 1]%nat [F64.of_int 2]) /\
  get_vegetation_index (pixel_band 0) (pixel_band 2) (pixel_band 1)
      "RGRI" normalize =
    Ok (mk_ndarray [1; 1]%nat [F64.decimal 5 1]).
Proof.
  intros Hb Hr.
  split; [|destruct normalize; repeat split; vm_compute; reflexivity].
  destruct (get_vegetation_index_pixels blue green red "VARI" normalize Hb Hr)
    as (vari & Ev & Sv & _ & Pv); [simpl; auto|].
  destruct (get_vegetation_index_pixels blue green red "GLI" normalize Hb Hr)
    as (gli & Eg & Sg & _ & Pg); [simpl; auto|].
  destruct (get_vegetation_index_pixels blue green red "RGRI" normalize Hb Hr)
    as (rgri & Er & Sr & _ & Pr); [simpl; auto|].
  exists vari, gli, rgri. repeat (split; [assumption|]).
  intros i b g r Hib Hig Hir fb fg fr two.
  destruct (Pv i b g r Hib Hig Hir) as (n1 & d1 & T1 & C1).
  destruct (Pg i b g r Hib Hig Hir) as (n2 & d2 & T2 & C2).
  destruct (Pr i b g r Hib Hig Hir) as (n3 & d3 & T3 & C3).
  change (pixel_terms "VARI" b g r)
    with (Some (F64.sub fg fr, F64.sub (F64.add fg fr) fb)) in T1.
  change (pixel_terms "GLI" b g r)
    with (Some (F64.sub (F64.sub (F64.mul two fg) fr) fb,
                F64.add (F64.add (F64.mul two fg) fr) fb)) in T2.
  change (pixel_terms "RGRI" b g r) with (Some (fr, fg)) in T3.
  injection T1 as <- <-. injection T2 as <- <-. injection T3 as <- <-.
  repeat split; assumption.
Qed.

Lemma get_vegetation_index_formulas_witness :
  exists vari gli rgri,
    get_vegetation_index (const_band 0) (const_band 10) (const_band 20)
      "VARI" true = Ok vari /\
    get_vegetation_index (const_band 0) (const_band 10) (const_band 20)
      "GLI" true = Ok gli /\
    get_vegetation_index (const_band 0) (const_band 10) (const_band 20)
      "RGRI" true = Ok rgri /\
    shape vari = [2; 2]%nat /\ shape gli = [2; 2]%nat /\
    shape rgri = [2; 2]%nat.
Proof.
  destruct (proj1 (get_vegetation_index_formulas
                     (const_band 0) (const_band 10) (const_band 20) true
                     eq_refl eq_refl))
    as (vari & gli & rgri & H1 & H2 & H3 & S1 & S2 & S3 & _).
  exists vari, gli, rgri. repeat split; assumption.
Defined.

(** C3, as the source has it. For every triple of same-shaped bands and
    every known index type, [get_vegetation_index] raises nothing, and a
    pixel whose denominator is zero holds NaN when its numerator is zero (or
    NaN) and an infinity, with the sign of the numerator and of the zero,
    otherwise. VARI on bands that are 0 everywhere is NaN at every pixel; on
    bands that are 100 everywhere the denominator is 100 and the index is
    0.0 at every pixel. *)
Theorem get_vegetation_index_zero_denominator (blue green red : ndarray N)
        (index_type : string) (normalize : bool) :
  shape blue = shape green -> shape red = shape green ->
  In index_type ["VARI"; "GLI"; "RGRI"]%string ->
  (exists idx,
     get_vegetation_index blue green red index_type normalize = Ok idx /\
     forall i b g r,
       nth_error (data blue) i = Some b ->
       nth_error (data green) i = Some g ->
       nth_error (data red) i = Some r ->
       exists num den cell,
         pixel_terms index_type b g r = Some (num, den) /\
         nth_error (data idx) i = Some cell /\
         cell = F64.div num den /\
         (F64.is_zero den = true ->
          cell = if F64.is_zero num || F64.is_nan num then F64.nan
                 else S754_infinity
                        (xorb (F64.signbit num) (F64.signbit den)))) /\
  get_vegetation_index (const_band 0) (const_band 0) (const_band 0)
      "VARI" normalize =
    Ok (mk_ndarray [2; 2]%nat [F64.nan; F64.nan; F64.nan; F64.nan]) /\
  get_vegetation_index (const_band 100) (const_band 100) (const_band 100)
      "VARI" normalize =
    Ok (mk_ndarray [2; 2]%nat [F64.zero; F64.zero; F64.zero; F64.zero]).
Proof.
  intros Hb Hr Hin.
  split; [|destruct normalize; split; vm_compute; reflexivity].
  destruct (get_vegetation_index_pixels blue green red index_type normalize
              Hb Hr Hin) as (idx & E & _ & _ & P).
  exists idx. split; [exact E|].
  intros i b g r Hib Hig Hir.
  destruct (P i b g r Hib Hig Hir) as (num & den & T & C).
  exists num, den, (F64.div num den).
  split; [exact T|]. split; [exact C|]. split; [reflexivity|].
  apply div_by_zero.
Qed.

Lemma get_vegetation_index_zero_denominator_witness :
  exists idx,
    get_vegetation_index (const_band 0) (const_band 0) (const_band 7)
      "RGRI" true = Ok idx.
Proof.
  destruct (proj1 (get_vegetation_index_zero_denominator
                     (const_band 0) (const_band 0) (const_band 7) "RGRI" true
                     eq_refl eq_refl (or_intror (or_intror (or_introl eq_refl)))))
    as (idx & H & _).
  exists idx. exact H.
Defined.

(** A zero denominator does not always give the sentinel, and the bands that
    are 100 everywhere do not divide by zero: RGRI on red 1, green 0 is
    [+inf], which [threshold] puts in the non-vegetation class, and VARI on
    the all-100 bands is 0.0. *)
Lemma zero_denominator_not_sentinel :
  get_vegetation_index (const_band 100) (const_band 100) (const_band 100)
      "VARI" true =
    Ok (mk_ndarray [2; 2]%nat [F64.zero; F64.zero; F64.zero; F64.zero]) /\
  F64.is_nan F64.zero = false /\
  pixel_terms "RGRI" 0 0 1 = Some (as_float 1, as_float 0) /\
  F64.is_zero (as_float 0) = true /\
  get_vegetation_index (pixel_band 0) (pixel_band 0) (pixel_band 1)
      "RGRI" true =
    Ok (mk_ndarray [1; 1]%nat [F64.pinf]) /\
  F64.is_nan F64.pinf = false /\
  threshold (mk_ndarray [1; 1]%nat [F64.pinf]) None None =
    Ok (mk_ndarray [1; 1]%nat [F64.nan], mk_ndarray [1; 1]%nat [marker]) /\
  ~ (forall index_type b g r num den,
       pixel_terms index_type b g r = Some (num, den) ->
       F64.is_zero den = true ->
       F64.is_nan (F64.div num den) = true).
Proof.
  do 7 (split; [vm_compute; reflexivity|]).
  intros H.
  specialize (H "RGRI"%string 0%N 0%N 1%N (as_float 1) (as_float 0)
                eq_refl eq_refl).
  vm_compute in H. discriminate.
Qed.

(** ** C6, C8 and C9: the pipeline *)

Lemma bind_ok_r {A : Type} (r : result A) : bind r Ok = r.
Proof. destruct r; reflexivity. Qed.

(** Every zoom level of the table has a kernel size. *)
Lemma kernel_size_of_zoom (zoom_level : Z) :
  0 <= zoom_level <= 23 ->
  exists gsd k,
    get_gsd_from_zoom zoom_level = Ok gsd /\ get_kernel_size gsd = Ok k /\
    Z.odd k = true /\ 1 <= k.
Proof.
  intros H.
  assert (Hn : exists n, (n < 24)%nat /\ zoom_level = Z.of_nat n).
  { exists (Z.to_nat zoom_level). split; lia. }
  destruct Hn as (n & Hlt & ->).
  do 24 (destruct n as [|n];
         [eexists; eexists; split; [vm_compute; reflexivity|];
          split; [vm_compute; reflexivity|]; split; [reflexivity|lia]|]).
  lia.
Qed.

Lemma invalid_zoom_raises (zoom_level : Z) :
  zoom_level < 0 \/ 23 < zoom_level ->
  get_gsd_from_zoom zoom_level = Raise (ValueError invalid_zoom_message).
Proof.
  intros H. unfold get_gsd_from_zoom. rewrite table_length.
  replace ((0 <=? zoom_level) && (zoom_level <? Z.of_nat 24)) with false;
    [reflexivity|].
  symmetry. apply andb_false_iff.
  destruct H; [left; apply Z.leb_gt|right; apply Z.ltb_ge]; lia.
Qed.

Lemma unknown_index_type_raises (blue green red : ndarray N)
      (index_type : string) (normalize : bool) :
  ~ In index_type ["VARI"; "GLI"; "RGRI"]%string ->
  get_vegetation_index blue green red index_type normalize =
    Raise (ValueError ("Unknown index type: " ++ index_type)).
Proof.
  intros H. unfold get_vegetation_index.
  destruct (String.eqb_spec index_type "VARI") as [->|_];
    [exfalso; apply H; simpl; auto|].
  destruct (String.eqb_spec index_type "GLI") as [->|_];
    [exfalso; apply H; simpl; auto|].
  destruct (String.eqb_spec index_type "RGRI") as [->|_];
    [exfalso; apply H; simpl; auto|].
  reflexivity.
Qed.

Lemma substring_append (pre value post : string) :
  substring (String.length pre) (String.length value)
            (pre ++ value ++ post) = value.
Proof.
  induction pre as [|c pre IH]; simpl.
  - induction value as [|c value IH]; simpl.
    + destruct post; reflexivity.
    + rewrite IH. reflexivity.
  - exact IH.
Qed.

Lemma append_nil_r_local (s : string) : (s ++ "")%string = s.
Proof. induction s as [|c s IH]; simpl; [reflexivity|rewrite IH; reflexivity]. Qed.

(** A text that [index] does not find is not named. *)
Lemma not_named (value message : string) :
  value <> ""%string -> index 0 value message = None ->
  ~ names value message.
Proof.
  intros Hne Hidx (pre & post & ->).
  apply (index_correct3 0 (String.length pre) _ _ Hidx Hne (Nat.le_0_l _)).
  apply substring_append.
Qed.

Lemma np_ones_square (k : Z) :
  0 <= k -> np_ones [k; k] = Ok (np_full [Z.to_nat k; Z.to_nat k] 1%N).
Proof.
  intros Hk. unfold np_ones. cbn [forallb map].
  rewrite (proj2 (Z.leb_le 0 k) Hk). reflexivity.
Qed.

Lemma names_prefix (a b message : string) :
  names (a ++ b) message -> names a message.
Proof.
  intros (pre & post & ->). exists pre, (b ++ post)%string.
  f_equal. clear. induction a as [|c a IH]; simpl; [reflexivity|].
  rewrite IH. reflexivity.
Qed.

Ltac refute_named H :=
  exfalso; revert H; apply not_named; [discriminate|reflexivity].

(** The fixed message names no invalid zoom level: the text of a negative
    level starts with a minus sign, which the message does not contain, and
    the only run of two digits in the message is 23, followed by a full
    stop. *)
Lemma invalid_zoom_not_named (zoom_level : Z) :
  zoom_level < 0 \/ 23 < zoom_level ->
  ~ names (py_str_int zoom_level) invalid_zoom_message.
Proof.
  intros Hz Hn. unfold py_str_int in Hn.
  pose proof (DecimalZ.of_to zoom_level) as Hback.
  destruct zoom_level as [|p|p]; [lia| |].
  - cbn [Z.to_int] in Hn, Hback.
    pose proof (DecimalPos.Unsigned.to_uint_nonnil p) as Hnil.
    destruct (Pos.to_uint p) as [|d1|d1|d1|d1|d1|d1|d1|d1|d1|d1];
      [congruence|..];
      (destruct d1 as [|d2|d2|d2|d2|d2|d2|d2|d2|d2|d2];
       [cbn in Hback; lia|..]);
      cbn [NilZero.string_of_int NilZero.string_of_uint] in Hn;
      try (apply (names_prefix (String _ (String _ EmptyString))) in Hn;
           refute_named Hn);
      (destruct d2 as [|d3|d3|d3|d3|d3|d3|d3|d3|d3|d3];
       [cbn in Hback; lia|..]);
      cbn [NilZero.string_of_uint] in Hn;
      apply (names_prefix (String _ (String _ (String _ EmptyString))))
        in Hn;
      refute_named Hn.
  - cbn [Z.to_int NilZero.string_of_int] in Hn.
    apply (names_prefix (String _ EmptyString)) in Hn. refute_named Hn.
Qed.

Section PipelineProperties.
Variable rasterio_read : string -> Z -> result (ndarray N).
Variable np_dstack : ndarray N -> ndarray N -> ndarray N -> result (ndarray N).
Variable cv2_morphologyEx :
  ndarray float -> morph_type -> ndarray N -> result (ndarray float).
Variable cv2_GaussianBlur :
  ndarray float -> Z * Z -> float -> result (ndarray float).

Let run := process_image rasterio_read np_dstack cv2_morphologyEx
             cv2_GaussianBlur.
Let run_with_upper :=
  process_image_with_upper rasterio_read np_dstack cv2_morphologyEx
    cv2_GaussianBlur.
Let bands_of := get_bands rasterio_read np_dstack.

(** C6. The result of [process_image] does not depend on [index_max]: any
    two values of that parameter, [None] included, give the same outcome for
    the same image, zoom level, [index_min] and index type, and the upper
    bound that [threshold] applies is always its own default, 1.0. *)
Theorem process_image_ignores_index_max (image_path : string)
        (zoom_level : Z) (index_min index_max index_max' : option float)
        (vegetation_index : option string) :
  run image_path zoom_level index_min index_max vegetation_index =
    run image_path zoom_level index_min index_max' vegetation_index /\
  run image_path zoom_level index_min index_max vegetation_index =
    run_with_upper threshold_default_max image_path zoom_level
      (default default_index_min index_min)
      (default "VARI"%string vegetation_index) /\
  threshold_default_max = F64.of_int 1.
Proof.
  split; [reflexivity|]. split; [|reflexivity].
  unfold run, run_with_upper, process_image, process_image_with_upper.
  destruct index_min, vegetation_index; cbn [default];
    (destruct (get_bands rasterio_read np_dstack image_path)
       as [[[[blue green] red] rgb]|e]; [|reflexivity]; cbn [bind];
     destruct (get_gsd_from_zoom zoom_level) as [gsd|e]; [|reflexivity];
     cbn [bind];
     destruct (get_kernel_size gsd) as [k|e]; [|reflexivity]; cbn [bind];
     match goal with
     | |- context [get_vegetation_index ?b ?g ?r ?t ?n] =>
         destruct (get_vegetation_index b g r t n) as [idx|e];
         [|reflexivity]
     end; cbn [bind];
     change (threshold idx (Some ?m) None)
       with (threshold idx (Some m) (Some threshold_default_max));
     match goal with
     | |- context [threshold ?i ?a ?b] =>
         destruct (threshold i a b) as [masks|e]; [|reflexivity]
     end; cbn [bind];
     match goal with
     | |- context [morphological_operations ?f ?m ?k] =>
         destruct (morphological_operations f m k) as [filtered|e];
         [|reflexivity]
     end; cbn [bind];
     apply bind_ok_r).
Qed.

(** C9. When [index_min] and [vegetation_index] are [None], [process_image]
    runs with 0.1 and "VARI"; and whenever it returns, what it returns is
    the one array that OpenCV's Gaussian blur, with kernel size (k, k) and
    sigma 1, gives for the closing of the opening of the vegetation mask,
    both with the all-ones k x k kernel: the non-vegetation mask and the
    intermediate arrays are not part of the result. *)
Theorem process_image_defaults (image_path : string) (zoom_level : Z)
        (index_max : option float) :
  run image_path zoom_level None index_max None =
    run image_path zoom_level (Some default_index_min) index_max
      (Some "VARI"%string) /\
  default_index_min = F64.decimal 1 1 /\
  forall index_min vegetation_index out,
    run image_path zoom_level index_min index_max vegetation_index = Ok out ->
    exists blue green red rgb gsd kernel_size veg_index vegetation_mask
           non_vegetation_mask opening closing,
      bands_of image_path = Ok (blue, green, red, rgb) /\
      get_gsd_from_zoom zoom_level = Ok gsd /\
      get_kernel_size gsd = Ok kernel_size /\ 0 <= kernel_size /\
      get_vegetation_index blue green red
        (default "VARI"%string vegetation_index) true = Ok veg_index /\
      threshold veg_index (Some (default default_index_min index_min)) None =
        Ok (vegetation_mask, non_vegetation_mask) /\
      cv2_morphologyEx vegetation_mask MORPH_OPEN
        (np_full [Z.to_nat kernel_size; Z.to_nat kernel_size] 1%N)
        = Ok opening /\
      cv2_morphologyEx opening MORPH_CLOSE
        (np_full [Z.to_nat kernel_size; Z.to_nat kernel_size] 1%N)
        = Ok closing /\
      cv2_GaussianBlur closing (kernel_size, kernel_size) F64.one = Ok out /\
      F64.one = F64.decimal 10 1.
Proof.
  split; [reflexivity|]. split; [vm_compute; reflexivity|].
  intros index_min vegetation_index out.
  unfold run, bands_of, process_image.
  replace (match index_min with
           | Some m => m
           | None => default_index_min
           end) with (default default_index_min index_min)
    by (destruct index_min; reflexivity).
  replace (match vegetation_index with
           | Some v => v
           | None => "VARI"%string
           end) with (default "VARI"%string vegetation_index)
    by (destruct vegetation_index; reflexivity).
  destruct (get_bands rasterio_read np_dstack image_path)
    as [[[[blue green] red] rgb]|e] eqn:Eb; [|discriminate]; cbn [bind].
  destruct (get_gsd_from_zoom zoom_level) as [gsd|e] eqn:Eg; [|discriminate].
  cbn [bind].
  destruct (get_kernel_size gsd) as [k|e] eqn:Ek; [|discriminate].
  cbn [bind].
  destruct (get_vegetation_index blue green red _ true) as [idx|e] eqn:Ei;
    [|discriminate].
  cbn [bind].
  destruct (threshold idx _ None) as [[veg nonveg]|e] eqn:Et; [|discriminate].
  cbn [bind fst].
  unfold morphological_operations, smoothing.
  destruct (Z.le_gt_cases 0 k) as [Hk|Hk].
  - rewrite (np_ones_square k Hk). cbn [bind].
    destruct (cv2_morphologyEx veg MORPH_OPEN _) as [opening|e] eqn:Eo;
      [|discriminate].
    cbn [bind].
    destruct (cv2_morphologyEx opening MORPH_CLOSE _) as [closing|e] eqn:Ec;
      [|discriminate].
    cbn [bind]. rewrite bind_ok_r. intros H.
    exists blue, green, red, rgb, gsd, k, idx, veg, nonveg, opening, closing.
    repeat (split; [first [reflexivity | assumption]|]).
    vm_compute. reflexivity.
  - unfold np_ones. cbn [forallb].
    replace (0 <=? k) with false by (symmetry; apply Z.leb_gt; exact Hk).
    discriminate.
Qed.

(** C8, as the source has it. An invalid zoom level makes
    [get_gsd_from_zoom] raise a [ValueError] whose message is one fixed
    text, which names no invalid level; an unknown index type makes
    [get_vegetation_index] raise a [ValueError] whose message names the
    type. In both cases [process_image] returns no result: it raises the
    band reader's error when reading fails, otherwise the zoom-level error
    when the zoom level is invalid, otherwise the index-type error. *)
Theorem process_image_invalid_arguments (image_path : string)
        (zoom_level : Z) (index_min index_max : option float)
        (vegetation_index : option string) :
  let index_type := default "VARI"%string vegetation_index in
  let outcome :=
    run image_path zoom_level index_min index_max vegetation_index in
  (zoom_level < 0 \/ 23 < zoom_level ->
   get_gsd_from_zoom zoom_level = Raise (ValueError invalid_zoom_message) /\
   ~ names (py_str_int zoom_level) invalid_zoom_message /\
   is_ok outcome = false /\
   (forall e, bands_of image_path = Raise e -> outcome = Raise e) /\
   (forall bands, bands_of image_path = Ok bands ->
      outcome = Raise (ValueError invalid_zoom_message))) /\
  (~ In index_type ["VARI"; "GLI"; "RGRI"]%string ->
   (forall blue green red normalize,
      get_vegetation_index blue green red index_type normalize =
        Raise (ValueError ("Unknown index type: " ++ index_type))) /\
   names index_type ("Unknown index type: " ++ index_type) /\
   is_ok outcome = false /\
   (forall e, bands_of image_path = Raise e -> outcome = Raise e) /\
   (forall bands, bands_of image_path = Ok bands ->
      zoom_level < 0 \/ 23 < zoom_level ->
      outcome = Raise (ValueError invalid_zoom_message)) /\
   (forall bands, bands_of image_path = Ok bands ->
      0 <= zoom_level <= 23 ->
      outcome = Raise (ValueError ("Unknown index type: " ++ index_type)))).
Proof.
  intros index_type outcome.
  assert (Hty : match vegetation_index with
                | Some v => v
                | None => "VARI"%string
                end = index_type)
    by (destruct vegetation_index; reflexivity).
  assert (Hread : forall e, bands_of image_path = Raise e ->
                            outcome = Raise e).
  { intros e He. unfold outcome, run, process_image. fold bands_of.
    rewrite He. reflexivity. }
  assert (Hzoom : zoom_level < 0 \/ 23 < zoom_level ->
                  forall bands, bands_of image_path = Ok bands ->
                  outcome = Raise (ValueError invalid_zoom_message)).
  { intros Hz [[[blue green] red] rgb] Hb.
    unfold outcome, run, process_image. fold bands_of. rewrite Hb.
    cbn [bind]. rewrite (invalid_zoom_raises zoom_level Hz). reflexivity. }
  split.
  - intros Hz. pose proof (invalid_zoom_raises zoom_level Hz) as E.
    split; [exact E|].
    split; [apply invalid_zoom_not_named; exact Hz|].
    split; [|split; [exact Hread|intros bands Hb; exact (Hzoom Hz bands Hb)]].
    destruct (bands_of image_path) as [bands|e] eqn:Hb.
    + rewrite (Hzoom Hz bands eq_refl). reflexivity.
    + rewrite (Hread e eq_refl). reflexivity.
  - intros Hin.
    split; [intros; apply unknown_index_type_raises; exact Hin|].
    split; [exists "Unknown index type: "%string, ""%string;
            rewrite append_nil_r_local; reflexivity|].
    assert (Hidx : forall bands, bands_of image_path = Ok bands ->
                   0 <= zoom_level <= 23 ->
                   outcome =
                     Raise (ValueError ("Unknown index type: " ++ index_type))).
    { intros [[[blue green] red] rgb] Hb Hz.
      unfold outcome, run, process_image. fold bands_of. rewrite Hb, Hty.
      cbn [bind].
      destruct (kernel_size_of_zoom zoom_level Hz)
        as (gsd & k & -> & Hk & _).
      cbn [bind]. rewrite Hk. cbn [bind].
      rewrite unknown_index_type_raises by exact Hin. reflexivity. }
    split; [|split; [exact Hread|split; [|exact Hidx]]].
    + destruct (bands_of image_path) as [bands|e] eqn:Hb.
      * destruct (Z_lt_le_dec zoom_level 0) as [Hneg|Hpos].
        { rewrite (Hzoom (or_introl Hneg) bands eq_refl). reflexivity. }
        destruct (Z_lt_le_dec 23 zoom_level) as [Hbig|Hsmall].
        { rewrite (Hzoom (or_intror Hbig) bands eq_refl). reflexivity. }
        rewrite (Hidx bands eq_refl (conj Hpos Hsmall)). reflexivity.
      * rewrite (Hread e eq_refl). reflexivity.
    + intros bands Hb Hz. exact (Hzoom Hz bands Hb).
Qed.

End PipelineProperties.

Lemma process_image_defaults_witness :
  exists out veg_index vegetation_mask non_vegetation_mask,
    process_image demo_read demo_dstack demo_morphologyEx demo_GaussianBlur
      "tile.tif" 18 None None None = Ok out /\
    threshold veg_index (Some default_index_min) None =
      Ok (vegetation_mask, non_vegetation_mask) /\
    out = vegetation_mask.
Proof.
  destruct (process_image demo_read demo_dstack demo_morphologyEx
              demo_GaussianBlur "tile.tif" 18 None None None)
    as [out|e] eqn:E; [|vm_compute in E; discriminate].
  destruct (proj2 (proj2 (process_image_defaults demo_read demo_dstack
                            demo_morphologyEx demo_GaussianBlur
                            "tile.tif" 18 None)) None None out E)
    as (blue & green & red & rgb & gsd & k & idx & veg & nonveg & opening
        & closing & _ & _ & _ & _ & _ & Ht & Ho & Hc & Hs & _).
  exists out, idx, veg, nonveg. split; [reflexivity|]. split; [exact Ht|].
  unfold demo_morphologyEx in Ho, Hc. unfold demo_GaussianBlur in Hs.
  congruence.
Defined.

Lemma process_image_invalid_arguments_witness :
  process_image demo_read demo_dstack demo_morphologyEx demo_GaussianBlur
    "tile.tif" 24 None None None = Raise (ValueError invalid_zoom_message) /\
  ~ names (py_str_int 24) invalid_zoom_message /\
  process_image demo_read demo_dstack demo_morphologyEx demo_GaussianBlur
    "tile.tif" 15 None None (Some "NDVI"%string) =
    Raise (ValueError "Unknown index type: NDVI") /\
  process_image demo_read demo_dstack demo_morphologyEx demo_GaussianBlur
    "tile.tif" 24 None None (Some "NDVI"%string) =
    Raise (ValueError invalid_zoom_message).
Proof.
  pose proof (process_image_invalid_arguments demo_read demo_dstack
                demo_morphologyEx demo_GaussianBlur
                "tile.tif" 24 None None None) as H24.
  pose proof (process_image_invalid_arguments demo_read demo_dstack
                demo_morphologyEx demo_GaussianBlur
                "tile.tif" 15 None None (Some "NDVI"%string)) as H15.
  pose proof (process_image_invalid_arguments demo_read demo_dstack
                demo_morphologyEx demo_GaussianBlur
                "tile.tif" 24 None None (Some "NDVI"%string)) as Hboth.
  cbv zeta in H24, H15, Hboth.
  assert (Hunknown : ~ In (default "VARI"%string (Some "NDVI"%string))
                          ["VARI"; "GLI"; "RGRI"]%string).
  { simpl. intros [H|[H|[H|[]]]]; discriminate H. }
  assert (Hbad : 24 < 0 \/ 23 < 24) by (right; lia).
  assert (Hgood : 0 <= 15 <= 23) by lia.
  destruct (proj1 H24 Hbad) as (_ & Hn & _ & _ & Hz).
  destruct (proj2 H15 Hunknown) as (_ & _ & _ & _ & _ & Hi).
  destruct (proj2 Hboth Hunknown) as (_ & _ & _ & _ & Hzi & _).
  split; [exact (Hz _ eq_refl)|]. split; [exact Hn|].
  split; [exact (Hi _ eq_refl Hgood)|].
  exact (Hzi _ eq_refl Hbad).
Defined.

(** The message raised for an invalid zoom level does not name the level:
    it is the same text for 24 and for -1, and contains neither. *)
Lemma invalid_zoom_message_names_no_level :
  get_gsd_from_zoom 24 = Raise (ValueError invalid_zoom_message) /\
  ~ names (py_str_int 24) invalid_zoom_message /\
  get_gsd_from_zoom (-1) = Raise (ValueError invalid_zoom_message) /\
  ~ names (py_str_int (-1)) invalid_zoom_message /\
  ~ (forall zoom_level, zoom_level < 0 \/ 23 < zoom_level ->
       exists msg, get_gsd_from_zoom zoom_level = Raise (ValueError msg) /\
                   names (py_str_int zoom_level) msg).
Proof.
  assert (H24 : ~ names (py_str_int 24) invalid_zoom_message).
  { apply not_named; [discriminate|reflexivity]. }
  split; [reflexivity|]. split; [exact H24|].
  split; [reflexivity|].
  split; [apply not_named; [discriminate|reflexivity]|].
  intros H. destruct (H 24) as (msg & E & Hn); [right; lia|].
  change (get_gsd_from_zoom 24) with
    (@Raise float (ValueError invalid_zoom_message)) in E.
  injection E as <-. exact (H24 Hn).
Qed.

(** ** C10: opening then closing is idempotent *)

Lemma forallb_ext_in {A : Type} (p q : A -> bool) (l : list A) :
  (forall a, In a l -> p a = q a) -> forallb p l = forallb q l.
Proof.
  induction l as [|a l IH]; intros H; [reflexivity|].
  simpl. rewrite (H a (or_introl eq_refl)), IH; [reflexivity|].
  intros b Hb. apply H. right. exact Hb.
Qed.

Lemma existsb_ext_in {A : Type} (p q : A -> bool) (l : list A) :
  (forall a, In a l -> p a = q a) -> existsb p l = existsb q l.
Proof.
  induction l as [|a l IH]; intros H; [reflexivity|].
  simpl. rewrite (H a (or_introl eq_refl)), IH; [reflexivity|].
  intros b Hb. apply H. right. exact Hb.
Qed.

Section PixelOrder.
Variables h w : nat.
Variable offsets : list (Z * Z).
Hypothesis offsets_symmetric :
  forall dy dx, In (dy, dx) offsets -> In (- dy, - dx) offsets.

Let E := erode_px h w offsets.
Let D := dilate_px h w offsets.
Let mask_le := mask_le h w.
Let mask_eq := mask_eq h w.

Lemma mask_le_refl (f : Z -> Z -> bool) : mask_le f f.
Proof. intros y x _ H. exact H. Qed.

Lemma mask_le_trans (f g k : Z -> Z -> bool) :
  mask_le f g -> mask_le g k -> mask_le f k.
Proof. intros H1 H2 y x Hi Hf. apply H2, H1; assumption. Qed.

Lemma mask_le_antisym (f g : Z -> Z -> bool) :
  mask_le f g -> mask_le g f -> mask_eq f g.
Proof.
  intros H1 H2 y x Hi. specialize (H1 y x Hi). specialize (H2 y x Hi).
  destruct (f y x), (g y x); auto. symmetry. auto.
Qed.

Lemma erode_px_true (f : Z -> Z -> bool) (y x : Z) :
  E f y x = true <->
  forall dy dx, In (dy, dx) offsets ->
    inside h w (y + dy) (x + dx) = true -> f (y + dy) (x + dx) = true.
Proof.
  unfold E, erode_px. rewrite forallb_forall. split.
  - intros H dy dx Hin Hi. specialize (H (dy, dx) Hin). simpl in H.
    rewrite Hi in H. exact H.
  - intros H [dy dx] Hin. simpl.
    destruct (inside h w (y + dy) (x + dx)) eqn:Hi; [|reflexivity].
    simpl. apply H; assumption.
Qed.

Lemma dilate_px_true (f : Z -> Z -> bool) (y x : Z) :
  D f y x = true <->
  exists dy dx, In (dy, dx) offsets /\
    inside h w (y + dy) (x + dx) = true /\ f (y + dy) (x + dx) = true.
Proof.
  unfold D, dilate_px. rewrite existsb_exists. split.
  - intros ([dy dx] & Hin & H). simpl in H.
    apply andb_true_iff in H. exists dy, dx. tauto.
  - intros (dy & dx & Hin & Hi & Hf). exists (dy, dx).
    split; [exact Hin|]. simpl. rewrite Hi, Hf. reflexivity.
Qed.

Lemma erode_mono (f g : Z -> Z -> bool) :
  mask_le f g -> mask_le (E f) (E g).
Proof.
  intros Hle y x _ H. rewrite erode_px_true in *.
  intros dy dx Hin Hi. apply Hle; [exact Hi|]. apply H; assumption.
Qed.

Lemma dilate_mono (f g : Z -> Z -> bool) :
  mask_le f g -> mask_le (D f) (D g).
Proof.
  intros Hle y x _ H. rewrite dilate_px_true in *.
  destruct H as (dy & dx & Hin & Hi & Hf).
  exists dy, dx. split; [exact Hin|]. split; [exact Hi|].
  apply Hle; assumption.
Qed.

Lemma back_step (y x dy dx : Z) :
  y + dy + - dy = y /\ x + dx + - dx = x.
Proof. split; lia. Qed.

(** An opening only removes pixels. *)
Lemma opening_below (f : Z -> Z -> bool) : mask_le (D (E f)) f.
Proof.
  intros y x Hi H. rewrite dilate_px_true in H.
  destruct H as (dy & dx & Hin & Hi' & He).
  rewrite erode_px_true in He.
  specialize (He (- dy) (- dx) (offsets_symmetric _ _ Hin)).
  destruct (back_step y x dy dx) as [Ey Ex]. rewrite Ey, Ex in He.
  apply He. exact Hi.
Qed.

(** A closing only adds pixels. *)
Lemma closing_above (f : Z -> Z -> bool) : mask_le f (E (D f)).
Proof.
  intros y x Hi H. rewrite erode_px_true. intros dy dx Hin Hi'.
  rewrite dilate_px_true. exists (- dy), (- dx).
  split; [apply offsets_symmetric; exact Hin|].
  destruct (back_step y x dy dx) as [Ey Ex]. rewrite Ey, Ex.
  split; assumption.
Qed.

(** Erosion and dilation read a mask only inside the image. *)
Lemma erode_ext (f g : Z -> Z -> bool) (y x : Z) :
  mask_eq f g -> E f y x = E g y x.
Proof.
  intros Heq. unfold E, erode_px. apply forallb_ext_in.
  intros [dy dx] _. simpl.
  destruct (inside h w (y + dy) (x + dx)) eqn:Hi; [|reflexivity].
  simpl. apply Heq. exact Hi.
Qed.

Lemma dilate_ext (f g : Z -> Z -> bool) (y x : Z) :
  mask_eq f g -> D f y x = D g y x.
Proof.
  intros Heq. unfold D, dilate_px. apply existsb_ext_in.
  intros [dy dx] _. simpl.
  destruct (inside h w (y + dy) (x + dx)) eqn:Hi; [|reflexivity].
  simpl. apply Heq. exact Hi.
Qed.

Lemma open_close_idempotent (f : Z -> Z -> bool) :
  mask_eq (open_close h w offsets (open_close h w offsets f))
          (open_close h w offsets f).
Proof.
  unfold open_close. fold E D. apply mask_le_antisym.
  - (* the inner opening removes pixels, and closing twice adds nothing *)
    apply erode_mono.
    apply mask_le_trans with (g := D (E (D (D (E f))))).
    + apply dilate_mono, opening_below.
    + apply opening_below.
  - (* an opening is not shrunk by a closing followed by an opening *)
    apply erode_mono, dilate_mono.
    apply mask_le_trans with (g := D (E (D (E f)))).
    + apply dilate_mono, closing_above.
    + apply dilate_mono, erode_mono, closing_above.
Qed.
End PixelOrder.

(** *** From pixel functions to arrays *)

Lemma nth_flat_rows {A : Type} (g : nat -> nat -> A) (d : A)
      (w h s i j : nat) :
  (i < h)%nat -> (j < w)%nat ->
  nth (i * w + j) (flat_map (fun r => map (g r) (seq 0 w)) (seq s h)) d =
    g (s + i)%nat j.
Proof.
  revert s i. induction h as [|h IH]; intros s i Hi Hj; [lia|].
  cbn [seq flat_map]. destruct i as [|i].
  - rewrite app_nth1 by (rewrite length_map, length_seq; exact Hj).
    rewrite (nth_indep _ d (g s 0%nat))
      by (rewrite length_map, length_seq; exact Hj).
    rewrite (map_nth (g s)), seq_nth by exact Hj.
    rewrite Nat.add_0_r. reflexivity.
  - rewrite app_nth2 by (rewrite length_map, length_seq; simpl; lia).
    rewrite length_map, length_seq.
    replace (S i * w + j - w)%nat with (i * w + j)%nat by (simpl; lia).
    rewrite IH by lia. f_equal. lia.
Qed.

Lemma flat_map_ext_in {A B : Type} (f g : A -> list B) (l : list A) :
  (forall a, In a l -> f a = g a) -> flat_map f l = flat_map g l.
Proof.
  induction l as [|a l IH]; intros H; [reflexivity|].
  simpl. rewrite (H a (or_introl eq_refl)), IH; [reflexivity|].
  intros b Hb. apply H. right. exact Hb.
Qed.

Lemma inside_bounds (h w : nat) (y x : Z) :
  inside h w y x = true <->
  0 <= y < Z.of_nat h /\ 0 <= x < Z.of_nat w.
Proof.
  unfold inside. rewrite !andb_true_iff, !Z.leb_le, !Z.ltb_lt. lia.
Qed.

(** Reading a built mask gives back the pixel function, inside the image. *)
Lemma lookup_build (h w : nat) (f : Z -> Z -> bool) :
  mask_eq h w (lookup (build h w f) w) f.
Proof.
  intros y x Hi. apply inside_bounds in Hi. destruct Hi as [Hy Hx].
  unfold lookup, build. cbn [data].
  replace (Z.to_nat (y * Z.of_nat w + x))
    with (Z.to_nat y * w + Z.to_nat x)%nat by nia.
  rewrite (nth_flat_rows (fun i j => f (Z.of_nat i) (Z.of_nat j)))
    by lia.
  rewrite Nat.add_0_l, !Z2Nat.id by lia. reflexivity.
Qed.

(** Two pixel functions that agree inside the image build the same mask. *)
Lemma build_ext (h w : nat) (f g : Z -> Z -> bool) :
  mask_eq h w f g -> build h w f = build h w g.
Proof.
  intros Heq. unfold build. f_equal. apply flat_map_ext_in.
  intros i Hi. apply map_ext_in. intros j Hj.
  apply in_seq in Hi. apply in_seq in Hj.
  apply Heq. apply inside_bounds. lia.
Qed.

(** The footprint of the all-ones [k] x [k] kernel. *)
Lemma ones_offsets (k : nat) (dy dx : Z) :
  In (dy, dx) (kernel_offsets (np_full [k; k] 1%N)) <->
  exists a b, (a < k)%nat /\ (b < k)%nat /\
              dy = Z.of_nat a - Z.of_nat (k / 2) /\
              dx = Z.of_nat b - Z.of_nat (k / 2).
Proof.
  unfold kernel_offsets, np_full. cbn [shape data size_of fold_right].
  rewrite in_flat_map. split.
  - intros (a & Ha & H). apply in_flat_map in H.
    destruct H as (b & Hb & H).
    apply in_seq in Ha. apply in_seq in Hb.
    exists a, b. split; [lia|]. split; [lia|].
    destruct (nth_error (repeat 1%N (k * (k * 1))) (a * k + b))
      as [[|p]|]; simpl in H; try contradiction.
    destruct H as [H|[]]. injection H as <- <-. split; reflexivity.
  - intros (a & b & Ha & Hb & -> & ->).
    exists a. split; [apply in_seq; lia|].
    apply in_flat_map. exists b. split; [apply in_seq; lia|].
    rewrite nth_error_repeat by nia. left. reflexivity.
Qed.

(** An odd all-ones kernel is symmetric about its anchor. *)
Lemma ones_offsets_symmetric (k : nat) :
  Nat.odd k = true ->
  forall dy dx,
    In (dy, dx) (kernel_offsets (np_full [k; k] 1%N)) ->
    In (- dy, - dx) (kernel_offsets (np_full [k; k] 1%N)).
Proof.
  intros Hodd dy dx H. apply Nat.odd_spec in Hodd. destruct Hodd as [m Hm].
  assert (Hhalf : (k / 2 = m)%nat).
  { subst k. rewrite Nat.add_comm, Nat.mul_comm, Nat.div_add by lia.
    reflexivity. }
  rewrite ones_offsets in *. destruct H as (a & b & Ha & Hb & -> & ->).
  exists (k - 1 - a)%nat, (k - 1 - b)%nat. rewrite Hhalf. lia.
Qed.

Lemma odd_to_nat (k : Z) :
  Z.odd k = true -> 1 <= k -> Nat.odd (Z.to_nat k) = true.
Proof.
  intros Hodd Hk. apply Nat.odd_spec.
  pose proof (Zmod_odd k) as Hm. rewrite Hodd in Hm.
  pose proof (Z.div_mod k 2) as Hd.
  exists (Z.to_nat (k / 2)). lia.
Qed.

(** On an [h] x [w] mask the source's two [morphologyEx] calls build the
    mask of the opened and closed pixel function. *)
Lemma morphological_operations_build (mask : ndarray bool) (h w : nat)
      (kernel_size : Z) :
  shape mask = [h; w] -> 0 <= kernel_size ->
  morphological_operations cv2_binary_morphologyEx mask kernel_size =
    Ok (build h w
          (open_close h w
             (kernel_offsets
                (np_full [Z.to_nat kernel_size; Z.to_nat kernel_size] 1%N))
             (lookup mask w))).
Proof.
  intros Hs Hk. unfold morphological_operations.
  rewrite (np_ones_square kernel_size Hk). cbn [bind].
  unfold cv2_binary_morphologyEx, cv2_erode, cv2_dilate.
  rewrite Hs. cbn [shape np_full build bind].
  f_equal. apply build_ext. intros y x Hi. unfold open_close.
  apply erode_ext. intros y1 x1 H1.
  rewrite (lookup_build h w _ y1 x1 H1).
  apply dilate_ext. intros y2 x2 H2.
  rewrite (lookup_build h w _ y2 x2 H2).
  apply dilate_ext. intros y3 x3 H3.
  apply (lookup_build h w _ y3 x3 H3).
Qed.

(** C10. For every binary mask, clean or not, and every odd kernel size
    >= 1, opening then closing with the square all-ones kernel returns a
    mask of the same shape on which the same stage changes nothing: applying
    [morphological_operations] twice gives what applying it once gives. On
    the example mask a 3 x 3 kernel removes the speck and keeps the block. *)
Theorem morphological_operations_idempotent (mask : ndarray bool)
        (h w : nat) (kernel_size : Z) :
  shape mask = [h; w] -> Z.odd kernel_size = true -> 1 <= kernel_size ->
  (exists once,
     morphological_operations cv2_binary_morphologyEx mask kernel_size
       = Ok once /\
     shape once = [h; w] /\
     morphological_operations cv2_binary_morphologyEx once kernel_size
       = Ok once /\
     (once' <- morphological_operations cv2_binary_morphologyEx mask
                 kernel_size ;;
      morphological_operations cv2_binary_morphologyEx once' kernel_size)
       = morphological_operations cv2_binary_morphologyEx mask kernel_size) /\
  morphological_operations cv2_binary_morphologyEx demo_mask 3 =
    Ok demo_mask_cleaned.
Proof.
  intros Hs Hodd Hk. split; [|vm_compute; reflexivity].
  assert (Hk0 : 0 <= kernel_size) by lia.
  pose proof (ones_offsets_symmetric (Z.to_nat kernel_size)
                (odd_to_nat kernel_size Hodd Hk)) as Hsym.
  rewrite (morphological_operations_build mask h w kernel_size Hs Hk0).
  set (offs := kernel_offsets
                 (np_full [Z.to_nat kernel_size; Z.to_nat kernel_size] 1%N))
    in *.
  set (f := lookup mask w).
  assert (Hagain :
            morphological_operations cv2_binary_morphologyEx
              (build h w (open_close h w offs f)) kernel_size =
            Ok (build h w (open_close h w offs f))).
  { rewrite (morphological_operations_build
               (build h w (open_close h w offs f)) h w kernel_size
               eq_refl Hk0).
    fold offs. f_equal. apply build_ext. intros y x Hi.
    transitivity (open_close h w offs (open_close h w offs f) y x).
    - unfold open_close at 1 3.
      apply erode_ext. intros y1 x1 H1.
      apply dilate_ext. intros y2 x2 H2.
      apply dilate_ext. intros y3 x3 H3.
      apply erode_ext. apply lookup_build.
    - apply (open_close_idempotent h w offs Hsym f y x Hi). }
  exists (build h w (open_close h w offs f)).
  split; [reflexivity|]. split; [reflexivity|]. split; [exact Hagain|].
  cbn [bind]. exact Hagain.
Qed.

Lemma morphological_operations_idempotent_witness :
  exists once,
    morphological_operations cv2_binary_morphologyEx demo_mask 3 = Ok once /\
    morphological_operations cv2_binary_morphologyEx once 3 = Ok once.
Proof.
  destruct (proj1 (morphological_operations_idempotent demo_mask 5 5 3
                     eq_refl eq_refl ltac:(lia)))
    as (once & H1 & _ & H2 & _).
  exists once. split; assumption.
Defined.

(** * Further properties of the source *)

(** ** Order of binary64 values *)

Ltac cmp_hyp :=
  match goal with
  | H : context [Z.compare ?a ?b] |- _ =>
      destruct (Z.compare_spec a b); cbn in H; try discriminate H
  | H : context [Pos.compare ?a ?b] |- _ =>
      destruct (Pos.compare_spec a b); cbn in H; try discriminate H
  end.

Ltac cmp_goal :=
  match goal with
  | |- context [Z.compare ?a ?b] =>
      destruct (Z.compare_spec a b); cbn; try reflexivity; try lia
  | |- context [Pos.compare ?a ?b] =>
      destruct (Pos.compare_spec a b); cbn; try reflexivity; try lia
  end.

Lemma leb_trans (x y z : float) :
  F64.leb x y = true -> F64.leb y z = true -> F64.leb x z = true.
Proof.
  unfold F64.leb, SFleb, SFcompare.
  destruct x as [sx|sx| |sx mx ex], y as [sy|sy| |sy my ey],
           z as [sz|sz| |sz mz ez];
    try discriminate; try reflexivity;
    try (destruct sx; try discriminate; try reflexivity);
    try (destruct sy; try discriminate; try reflexivity);
    try (destruct sz; try discriminate; try reflexivity);
    change PosDef.Pos.compare_cont with Pos.compare_cont;
    change (Pos.compare_cont Eq) with Pos.compare;
    intros H1 H2; repeat cmp_hyp; repeat cmp_goal.
Qed.

Lemma ltb_leb (x y : float) : F64.ltb x y = true -> F64.leb x y = true.
Proof.
  unfold F64.ltb, F64.leb, SFltb, SFleb.
  destruct (SFcompare x y) as [[| |]|]; congruence.
Qed.

(** ** The zoom table and the kernel sizes it gives *)

Lemma seq_24 (z : Z) :
  0 <= z <= 23 -> In (Z.to_nat z) (seq 0 24) /\ z = Z.of_nat (Z.to_nat z).
Proof. intros H. split; [apply in_seq|]; lia. Qed.

(** X1. The ground sample distances of the table are positive and finite,
    and strictly decreasing in the zoom level. *)
Theorem gsd_strictly_decreasing (a b : Z) :
  0 <= a -> a < b -> b <= 23 ->
  exists ga gb,
    get_gsd_from_zoom a = Ok ga /\ get_gsd_from_zoom b = Ok gb /\
    F64.ltb gb ga = true /\
    F64.ltb F64.zero gb = true /\ F64.is_finite ga = true /\
    F64.is_finite gb = true.
Proof.
  intros Ha Hab Hb.
  assert (Hall :
    forallb (fun i => forallb (fun j =>
      if (i <? j)%nat then
        match get_gsd_from_zoom (Z.of_nat i),
              get_gsd_from_zoom (Z.of_nat j) with
        | Ok ga, Ok gb =>
            F64.ltb gb ga && F64.ltb F64.zero gb
            && F64.is_finite ga && F64.is_finite gb
        | _, _ => false
        end
      else true) (seq 0 24)) (seq 0 24) = true)
    by (vm_compute; reflexivity).
  rewrite forallb_forall in Hall.
  destruct (seq_24 a ltac:(lia)) as [Hia Ea].
  destruct (seq_24 b ltac:(lia)) as [Hib Eb].
  specialize (Hall _ Hia). rewrite forallb_forall in Hall.
  specialize (Hall _ Hib).
  replace (Z.to_nat a <? Z.to_nat b)%nat with true in Hall
    by (symmetry; apply Nat.ltb_lt; lia).
  rewrite <- Ea, <- Eb in Hall.
  destruct (get_gsd_from_zoom a) as [ga|]; [|discriminate].
  destruct (get_gsd_from_zoom b) as [gb|]; [|discriminate].
  apply andb_true_iff in Hall. destruct Hall as [Hall H4].
  apply andb_true_iff in Hall. destruct Hall as [Hall H3].
  apply andb_true_iff in Hall. destruct Hall as [H1 H2].
  exists ga, gb. repeat (split; [first [reflexivity | assumption]|]).
  assumption.
Qed.

Lemma gsd_strictly_decreasing_witness :
  exists ga gb,
    get_gsd_from_zoom 3 = Ok ga /\ get_gsd_from_zoom 20 = Ok gb /\
    F64.ltb gb ga = true.
Proof.
  destruct (gsd_strictly_decreasing 3 20 ltac:(lia) ltac:(lia) ltac:(lia))
    as (ga & gb & H1 & H2 & H3 & _).
  exists ga, gb. repeat split; assumption.
Defined.

(** X2. Every zoom level of the table has a kernel size: an odd integer
    between 1 and 101 that never decreases when the zoom level grows, and
    that is 1 up to zoom level 17. *)
Theorem kernel_size_by_zoom (a b : Z) :
  0 <= a -> a <= b -> b <= 23 ->
  exists ka kb,
    kernel_size_of a = Ok ka /\ kernel_size_of b = Ok kb /\
    Z.odd ka = true /\ Z.odd kb = true /\
    1 <= ka /\ ka <= kb /\ kb <= 101 /\
    (b <= 17 -> kb = 1).
Proof.
  intros Ha Hab Hb.
  assert (Hall :
    forallb (fun i => forallb (fun j =>
      if (i <=? j)%nat then
        match kernel_size_of (Z.of_nat i), kernel_size_of (Z.of_nat j) with
        | Ok ka, Ok kb =>
            Z.odd ka && Z.odd kb && (1 <=? ka) && (ka <=? kb)
            && (kb <=? 101) && ((17 <? Z.of_nat j) || (kb =? 1))
        | _, _ => false
        end
      else true) (seq 0 24)) (seq 0 24) = true)
    by (vm_compute; reflexivity).
  rewrite forallb_forall in Hall.
  destruct (seq_24 a ltac:(lia)) as [Hia Ea].
  destruct (seq_24 b ltac:(lia)) as [Hib Eb].
  specialize (Hall _ Hia). rewrite forallb_forall in Hall.
  specialize (Hall _ Hib).
  replace (Z.to_nat a <=? Z.to_nat b)%nat with true in Hall
    by (symmetry; apply Nat.leb_le; lia).
  rewrite <- Ea, <- Eb in Hall.
  destruct (kernel_size_of a) as [ka|]; [|discriminate].
  destruct (kernel_size_of b) as [kb|]; [|discriminate].
  repeat (apply andb_true_iff in Hall; destruct Hall as [Hall ?]).
  exists ka, kb.
  repeat (split; [first [reflexivity | assumption | lia]|]).
  intros H17.
  match goal with
  | H : (_ <? _) || _ = true |- _ =>
      apply orb_true_iff in H; destruct H as [H|H]; lia
  end.
Qed.

Lemma kernel_size_by_zoom_witness :
  exists ka kb,
    kernel_size_of 10 = Ok ka /\ kernel_size_of 21 = Ok kb /\ ka <= kb.
Proof.
  destruct (kernel_size_by_zoom 10 21 ltac:(lia) ltac:(lia) ltac:(lia))
    as (ka & kb & H1 & H2 & _ & _ & _ & H3 & _).
  exists ka, kb. repeat split; assumption.
Defined.

(** ** Outcomes of [get_kernel_size] *)

(** X3. Whatever the argument, a kernel size that [get_kernel_size] returns
    is odd, hence never 0, and comes from a non-zero gsd with a finite
    quotient [2 / gsd]. The function raises in exactly three ways:
    [ZeroDivisionError] for a zero gsd, [ValueError] when the quotient is
    NaN (as for a NaN gsd) and [OverflowError] when it is infinite. An
    infinite gsd gives kernel size 1. *)
Theorem get_kernel_size_outcomes (gsd : float) :
  let q := F64.div (F64.of_int 2) gsd in
  (forall k, get_kernel_size gsd = Ok k ->
     Z.odd k = true /\ k <> 0 /\
     F64.is_zero gsd = false /\ F64.is_finite q = true) /\
  (forall e, get_kernel_size gsd = Raise e ->
     (e = ZeroDivisionError "float division by zero" /\
      F64.is_zero gsd = true) \/
     (e = ValueError "cannot convert float NaN to integer" /\
      F64.is_zero gsd = false /\ F64.is_nan q = true) \/
     (e = OverflowError "cannot convert float infinity to integer" /\
      F64.is_zero gsd = false /\ is_infinite q = true)) /\
  (F64.is_nan gsd = true ->
   get_kernel_size gsd =
     Raise (ValueError "cannot convert float NaN to integer")) /\
  (is_infinite gsd = true -> get_kernel_size gsd = Ok 1).
Proof.
  intros q. unfold get_kernel_size, py_truediv. fold q.
  split; [|split; [|split]].
  - clearbody q. intros k.
    destruct (F64.is_zero gsd); [discriminate|]. cbn [bind].
    destruct (py_int q) as [n|e] eqn:En; cbn [bind]; [|discriminate].
    intros [= <-]. pose proof (odd_adjust n) as Ho.
    split; [exact Ho|].
    split; [intros H0; rewrite H0 in Ho; discriminate Ho|].
    split; [reflexivity|].
    destruct q; try discriminate En; reflexivity.
  - clearbody q. intros e. destruct (F64.is_zero gsd).
    + intros [= <-]. left. split; reflexivity.
    + cbn [bind]. destruct q as [s|s| |s m ex]; cbn [py_int bind];
        try discriminate; intros [= <-].
      * right. right. repeat split.
      * right. left. repeat split.
  - intros Hn. destruct gsd; try discriminate. reflexivity.
  - intros Hi. destruct gsd as [s|s| |s m e]; try discriminate.
    destruct s; reflexivity.
Qed.

Lemma get_kernel_size_outcomes_witness :
  (Z.odd 3 = true /\ 3 <> 0) /\
  get_kernel_size F64.nan =
    Raise (ValueError "cannot convert float NaN to integer") /\
  get_kernel_size F64.pinf = Ok 1.
Proof.
  pose proof (get_kernel_size_outcomes F64.one) as H1.
  pose proof (get_kernel_size_outcomes F64.nan) as H2.
  pose proof (get_kernel_size_outcomes F64.pinf) as H3.
  cbv zeta in H1, H2, H3.
  split; [|split].
  - destruct (proj1 H1 3 eq_refl) as (Ho & Hz & _). split; assumption.
  - apply (proj1 (proj2 (proj2 H2))). reflexivity.
  - apply (proj2 (proj2 (proj2 H3))). reflexivity.
Defined.

(** ** More on [threshold] *)

Lemma threshold_defaults (index : ndarray float) (min max : option float) :
  threshold index min max =
    threshold index (Some (default threshold_default_min min))
      (Some (default threshold_default_max max)).
Proof. destruct min, max; reflexivity. Qed.

(** X4. Whatever the bounds, given or left to their defaults, the two masks
    hold nothing but the marker, which is the float 1.0, and the sentinel
    NaN, and no cell holds the marker in both. *)
Theorem threshold_masks_disjoint (index : ndarray float)
        (min max : option float) :
  wf_ndarray index ->
  exists veg nonveg,
    threshold index min max = Ok (veg, nonveg) /\
    marker = F64.one /\
    forall i cv cn,
      nth_error (data veg) i = Some cv ->
      nth_error (data nonveg) i = Some cn ->
      (cv = F64.one \/ cv = F64.nan) /\ (cn = F64.one \/ cn = F64.nan) /\
      ~ (cv = F64.one /\ cn = F64.one).
Proof.
  intros Hwf. rewrite threshold_defaults.
  rewrite (threshold_cells index _ _ Hwf).
  eexists. eexists. split; [reflexivity|]. split; [reflexivity|].
  cbn [data]. change F64.one with marker.
  intros i cv cn Hv Hn.
  rewrite nth_error_map in Hv. rewrite nth_error_map in Hn.
  destruct (nth_error (data index) i) as [v|]; [|discriminate].
  cbn [option_map] in Hv, Hn. injection Hv as Hv. injection Hn as Hn.
  destruct (threshold_cell_cases v _ _ cv cn (eq_sym Hv) (eq_sym Hn))
    as (_ & _ & _ & Hin & Hout & _).
  split; [|split].
  - rewrite <- Hv. destruct (_ && _); auto.
  - rewrite <- Hn. destruct (_ || _); auto.
  - intros [Hcv Hcn]. destruct (Hin Hcv) as [H1 H2].
    pose proof (leb_ltb_exclusive _ _ H1) as E1.
    pose proof (leb_ltb_exclusive _ _ H2) as E2.
    destruct (Hout Hcn); congruence.
Qed.

Lemma threshold_masks_disjoint_witness :
  exists veg nonveg,
    threshold example_index None None = Ok (veg, nonveg) /\
    forall i cv cn,
      nth_error (data veg) i = Some cv ->
      nth_error (data nonveg) i = Some cn ->
      ~ (cv = F64.one /\ cn = F64.one).
Proof.
  destruct (threshold_masks_disjoint example_index None None eq_refl)
    as (veg & nonveg & H & _ & Hd).
  exists veg, nonveg. split; [exact H|].
  intros i cv cn Hv Hn. apply (Hd i cv cn Hv Hn).
Defined.

(** X5. With inverted bounds, [max < min], no cell is vegetation: the
    vegetation mask is the sentinel everywhere, and the non-vegetation mask
    marks exactly the cells of the index that are numbers. *)
Theorem threshold_inverted_bounds (index : ndarray float) (min max : float) :
  wf_ndarray index -> F64.ltb max min = true ->
  exists veg nonveg,
    threshold index (Some min) (Some max) = Ok (veg, nonveg) /\
    (forall i cv, nth_error (data veg) i = Some cv -> cv = F64.nan) /\
    (forall i v cn,
       nth_error (data index) i = Some v ->
       nth_error (data nonveg) i = Some cn ->
       (cn = marker <-> F64.is_nan v = false)).
Proof.
  intros Hwf Hinv. rewrite (threshold_cells index min max Hwf).
  eexists. eexists. split; [reflexivity|]. cbn [data].
  assert (Hmin : F64.is_nan min = false)
    by (destruct min; try reflexivity; destruct max; discriminate).
  assert (Hmax : F64.is_nan max = false)
    by (destruct max; try reflexivity; discriminate).
  assert (Hempty : forall v, F64.leb min v = true -> F64.leb v max = true ->
                             False).
  { intros v H1 H2. pose proof (leb_trans _ _ _ H1 H2) as H.
    apply leb_ltb_exclusive in H. congruence. }
  split.
  - intros i cv Hv. rewrite nth_error_map in Hv.
    destruct (nth_error (data index) i) as [v|]; [|discriminate].
    cbn [option_map] in Hv. injection Hv as <-. unfold F64.geb.
    change (SFleb min v) with (F64.leb min v).
    destruct (F64.leb min v) eqn:H1; [|reflexivity].
    destruct (F64.leb v max) eqn:H2; [|reflexivity].
    destruct (Hempty v H1 H2).
  - intros i v cn Hv Hn. rewrite (map_nth_error _ _ _ Hv) in Hn.
    injection Hn as <-. unfold F64.gtb.
    change (SFltb max v) with (F64.ltb max v).
    destruct (F64.is_nan v) eqn:Hnan.
    + destruct v; try discriminate.
      replace (F64.ltb S754_nan min) with false by (destruct min; reflexivity).
      replace (F64.ltb max S754_nan) with false by (destruct max; reflexivity).
      simpl. split; [intros H; symmetry in H; destruct (marker_not_nan H)|
                     discriminate].
    + pose proof (leb_ltb_numbers min v Hmin Hnan) as L1.
      pose proof (leb_ltb_numbers v max Hnan Hmax) as L2.
      destruct (F64.ltb v min); [simpl; tauto|].
      destruct (F64.ltb max v); [simpl; tauto|].
      simpl in L1, L2. destruct (Hempty v L1 L2).
Qed.

Lemma threshold_inverted_bounds_witness :
  exists veg nonveg,
    threshold example_index (Some threshold_default_max)
      (Some threshold_default_min) = Ok (veg, nonveg) /\
    forall i cv, nth_error (data veg) i = Some cv -> cv = F64.nan.
Proof.
  destruct (threshold_inverted_bounds example_index threshold_default_max
              threshold_default_min eq_refl eq_refl)
    as (veg & nonveg & H & Hv & _).
  exists veg, nonveg. split; assumption.
Defined.

(** X6. Widening the range never removes vegetation and never adds
    non-vegetation: with [min' <= min] and [max <= max'], a cell marked in
    the vegetation mask for [min, max] is marked for [min', max'], and a
    cell marked in the non-vegetation mask for [min', max'] is marked for
    [min, max]. *)
Theorem threshold_monotone (index : ndarray float) (min max min' max' : float) :
  wf_ndarray index ->
  F64.leb min' min = true -> F64.leb max max' = true ->
  exists veg nonveg veg' nonveg',
    threshold index (Some min) (Some max) = Ok (veg, nonveg) /\
    threshold index (Some min') (Some max') = Ok (veg', nonveg') /\
    forall i,
      (nth_error (data veg) i = Some marker ->
       nth_error (data veg') i = Some marker) /\
      (nth_error (data nonveg') i = Some marker ->
       nth_error (data nonveg) i = Some marker).
Proof.
  intros Hwf Hmin Hmax.
  rewrite (threshold_cells index min max Hwf).
  rewrite (threshold_cells index min' max' Hwf).
  do 4 eexists. split; [reflexivity|]. split; [reflexivity|]. cbn [data].
  assert (Nmin : F64.is_nan min = false /\ F64.is_nan min' = false)
    by (destruct min, min'; try discriminate; split; reflexivity).
  assert (Nmax : F64.is_nan max = false /\ F64.is_nan max' = false)
    by (destruct max, max'; try discriminate; split; reflexivity).
  destruct Nmin as [Nmin Nmin']. destruct Nmax as [Nmax Nmax'].
  intros i. rewrite !nth_error_map.
  destruct (nth_error (data index) i) as [v|]; cbn [option_map];
    [|split; discriminate].
  unfold F64.geb, F64.gtb.
  change (SFleb min v) with (F64.leb min v).
  change (SFleb min' v) with (F64.leb min' v).
  change (SFltb max v) with (F64.ltb max v).
  change (SFltb max' v) with (F64.ltb max' v).
  pose proof marker_not_nan as Hm.
  split.
  - destruct (F64.leb min v) eqn:H1; [|simpl; congruence].
    destruct (F64.leb v max) eqn:H2; [|simpl; congruence].
    rewrite (leb_trans _ _ _ Hmin H1), (leb_trans _ _ _ H2 Hmax).
    reflexivity.
  - destruct (F64.is_nan v) eqn:Nv.
    { destruct v; try discriminate.
      replace (F64.ltb S754_nan min') with false
        by (destruct min'; reflexivity).
      replace (F64.ltb max' S754_nan) with false
        by (destruct max'; reflexivity).
      simpl. congruence. }
    pose proof (leb_ltb_numbers min v Nmin Nv) as L1.
    pose proof (leb_ltb_numbers v max Nv Nmax) as L2.
    pose proof (leb_ltb_numbers min' v Nmin' Nv) as L1'.
    pose proof (leb_ltb_numbers v max' Nv Nmax') as L2'.
    destruct (F64.ltb v min) eqn:A; [reflexivity|].
    destruct (F64.ltb max v) eqn:B; [reflexivity|].
    simpl in L1, L2.
    pose proof (leb_trans _ _ _ Hmin L1) as T1.
    pose proof (leb_trans _ _ _ L2 Hmax) as T2.
    rewrite T1 in L1'. rewrite T2 in L2'.
    destruct (F64.ltb v min'); [discriminate|].
    destruct (F64.ltb max' v); [discriminate|].
    simpl. congruence.
Qed.

Lemma threshold_monotone_witness :
  exists veg nonveg veg' nonveg',
    threshold example_index
      (Some threshold_default_min) (Some threshold_default_max)
      = Ok (veg, nonveg) /\
    threshold example_index (Some F64.zero) (Some F64.pinf)
      = Ok (veg', nonveg') /\
    forall i,
      nth_error (data veg) i = Some marker ->
      nth_error (data veg') i = Some marker.
Proof.
  destruct (threshold_monotone example_index threshold_default_min
              threshold_default_max F64.zero F64.pinf
              eq_refl eq_refl eq_refl)
    as (veg & nonveg & veg' & nonveg' & H1 & H2 & H).
  exists veg, nonveg, veg', nonveg'.
  split; [exact H1|]. split; [exact H2|].
  intros i. apply (proj1 (H i)).
Defined.

(** ** The index calculator followed by the thresholder *)

(** An infinite cell lies outside every range with finite bounds. *)
Lemma threshold_cell_infinite (v min max : float) :
  is_infinite v = true ->
  F64.is_finite min = true -> F64.is_finite max = true ->
  (if F64.geb v min && F64.leb v max then marker else F64.nan) = F64.nan /\
  (if F64.ltb v min || F64.gtb v max then marker else F64.nan) = marker.
Proof.
  destruct v as [s|s| |s m e]; try discriminate. intros _.
  destruct min as [s1|s1| |s1 m1 e1]; try discriminate.
  - destruct max as [s2|s2| |s2 m2 e2]; try discriminate; intros _ _;
      destruct s; split; reflexivity.
  - destruct max as [s2|s2| |s2 m2 e2]; try discriminate; intros _ _;
      destruct s; split; reflexivity.
Qed.

(** X7. What becomes of a division by zero downstream, for finite bounds:
    a pixel whose denominator and numerator are both zero is the sentinel in
    both masks, and a pixel whose denominator is zero and whose numerator is
    a non-zero number is marked in the non-vegetation mask. *)
Theorem zero_denominator_classification (blue green red : ndarray N)
        (index_type : string) (normalize : bool) (min max : float) :
  shape blue = shape green -> shape red = shape green ->
  wf_ndarray blue -> wf_ndarray green -> wf_ndarray red ->
  In index_type ["VARI"; "GLI"; "RGRI"]%string ->
  F64.is_finite min = true -> F64.is_finite max = true ->
  exists idx veg nonveg,
    get_vegetation_index blue green red index_type normalize = Ok idx /\
    threshold idx (Some min) (Some max) = Ok (veg, nonveg) /\
    forall i b g r num den,
      nth_error (data blue) i = Some b ->
      nth_error (data green) i = Some g ->
      nth_error (data red) i = Some r ->
      pixel_terms index_type b g r = Some (num, den) ->
      F64.is_zero den = true ->
      exists cv cn,
        nth_error (data veg) i = Some cv /\
        nth_error (data nonveg) i = Some cn /\
        (F64.is_zero num = true -> cv = F64.nan /\ cn = F64.nan) /\
        (F64.is_zero num = false -> F64.is_nan num = false ->
         cv = F64.nan /\ cn = marker).
Proof.
  intros Hb Hr Wb Wg Wr Hin Fmin Fmax.
  destruct (get_vegetation_index_pixels blue green red index_type normalize
              Hb Hr Hin) as (idx & E & _ & Wi & P).
  specialize (Wi Wb Wg Wr).
  exists idx. rewrite (threshold_cells idx min max Wi).
  eexists. eexists. split; [exact E|]. split; [reflexivity|].
  cbn [data]. intros i b g r num den Hib Hig Hir T Hz.
  destruct (P i b g r Hib Hig Hir) as (num' & den' & T' & C).
  rewrite T in T'. injection T' as <- <-.
  rewrite (div_by_zero num den Hz) in C.
  eexists. eexists.
  split; [apply map_nth_error; exact C|].
  split; [apply map_nth_error; exact C|].
  split.
  - intros Hn. rewrite Hn. cbn [orb].
    replace (F64.geb F64.nan min) with false by (destruct min; reflexivity).
    replace (F64.ltb F64.nan min) with false by (destruct min; reflexivity).
    replace (F64.gtb F64.nan max) with false by (destruct max; reflexivity).
    split; reflexivity.
  - intros Hn Hnan. rewrite Hn, Hnan. cbn [orb].
    apply threshold_cell_infinite; [reflexivity|assumption|assumption].
Qed.

Lemma zero_denominator_classification_witness :
  exists idx veg nonveg,
    get_vegetation_index (const_band 0) (const_band 0) (const_band 7)
      "RGRI" true = Ok idx /\
    threshold idx (Some threshold_default_min) (Some threshold_default_max)
      = Ok (veg, nonveg).
Proof.
  destruct (zero_denominator_classification
              (const_band 0) (const_band 0) (const_band 7) "RGRI" true
              threshold_default_min threshold_default_max
              eq_refl eq_refl eq_refl eq_refl eq_refl
              (or_intror (or_intror (or_introl eq_refl))) eq_refl eq_refl)
    as (idx & veg & nonveg & H1 & H2 & _).
  exists idx, veg, nonveg. split; assumption.
Defined.

(** ** Shapes and signs in [get_vegetation_index] *)

Lemma broadcast_rev_refl (r : list nat) : broadcast_rev r r = Some r.
Proof.
  induction r as [|a r IH]; [reflexivity|].
  simpl. rewrite IH, Nat.eqb_refl. reflexivity.
Qed.

Lemma broadcast_rev_sym (r1 r2 : list nat) :
  broadcast_rev r1 r2 = broadcast_rev r2 r1.
Proof.
  revert r2. induction r1 as [|a r1 IH]; intros [|b r2]; try reflexivity.
  simpl. rewrite (IH r2). destruct (broadcast_rev r2 r1); [|reflexivity].
  rewrite (Nat.eqb_sym b a).
  destruct (Nat.eqb_spec a b) as [->|Hab]; [reflexivity|].
  destruct (Nat.eqb_spec a 1) as [->|Ha], (Nat.eqb_spec b 1) as [->|Hb];
    reflexivity.
Qed.

Lemma broadcast_shapes_sym (s1 s2 : list nat) :
  broadcast_shapes s1 s2 = broadcast_shapes s2 s1.
Proof. unfold broadcast_shapes. rewrite broadcast_rev_sym. reflexivity. Qed.

(** Shapes that do not broadcast make every binary operation raise numpy's
    error, whose message lists the two shapes. *)
Lemma np_binop_incompatible {A B C : Type} (f : A -> B -> C)
      (a : ndarray A) (b : ndarray B) :
  broadcast_shapes (shape a) (shape b) = None ->
  np_binop f a b =
    Raise (ValueError (broadcast_message (shape a) (shape b))).
Proof.
  intros H. unfold np_binop, shape_eqb.
  destruct (list_eq_dec Nat.eq_dec (shape a) (shape b)) as [E|_].
  - rewrite E in H. unfold broadcast_shapes in H.
    rewrite broadcast_rev_refl in H. discriminate.
  - rewrite H. reflexivity.
Qed.

Lemma prefix_append (a b : string) : prefix a (a ++ b) = true.
Proof.
  induction a as [|c a IH]; [destruct b; reflexivity|].
  simpl. destruct (Ascii.ascii_dec c c); [exact IH|congruence].
Qed.

Lemma broadcast_message_prefix (s1 s2 : list nat) :
  prefix "operands could not be broadcast together with shapes "
         (broadcast_message s1 s2) = true.
Proof. unfold broadcast_message. apply prefix_append. Qed.

Lemma string_append_assoc (a b c : string) :
  ((a ++ b) ++ c = a ++ b ++ c)%string.
Proof.
  induction a as [|x a IH]; simpl; [reflexivity|rewrite IH; reflexivity].
Qed.

Lemma broadcast_message_names (s1 s2 : list nat) :
  names (shape_to_string s1) (broadcast_message s1 s2) /\
  names (shape_to_string s2) (broadcast_message s1 s2).
Proof.
  unfold broadcast_message. split.
  - eexists. eexists. reflexivity.
  - exists ("operands could not be broadcast together with shapes "
            ++ shape_to_string s1 ++ " ")%string, " "%string.
    rewrite !string_append_assoc. reflexivity.
Qed.

(** X8. Bands whose shapes do not broadcast are rejected: when the green and
    red bands are incompatible every index type raises a [ValueError] whose
    message starts with "operands could not be broadcast together with
    shapes" and names the two shapes, and when green and red agree
    but the blue band is incompatible VARI and GLI raise it, while RGRI,
    which never reads the blue band, does not. *)
Theorem get_vegetation_index_incompatible_shapes (blue green red : ndarray N)
        (normalize : bool) :
  let broadcast_error (r : result (ndarray float)) (s1 s2 : list nat) :=
    exists msg,
      r = Raise (ValueError msg) /\
      prefix "operands could not be broadcast together with shapes " msg
        = true /\
      names (shape_to_string s1) msg /\ names (shape_to_string s2) msg
  in
  (broadcast_shapes (shape green) (shape red) = None ->
   broadcast_error
     (get_vegetation_index blue green red "VARI" normalize)
     (shape green) (shape red) /\
   broadcast_error
     (get_vegetation_index blue green red "GLI" normalize)
     (shape green) (shape red) /\
   broadcast_error
     (get_vegetation_index blue green red "RGRI" normalize)
     (shape red) (shape green)) /\
  (shape green = shape red ->
   broadcast_shapes (shape green) (shape blue) = None ->
   broadcast_error
     (get_vegetation_index blue green red "VARI" normalize)
     (shape green) (shape blue) /\
   broadcast_error
     (get_vegetation_index blue green red "GLI" normalize)
     (shape green) (shape blue) /\
   is_ok (get_vegetation_index blue green red "RGRI" normalize) = true).
Proof.
  intros broadcast_error.
  assert (Hmsg : forall r s1 s2,
             r = Raise (ValueError (broadcast_message s1 s2)) ->
             broadcast_error r s1 s2).
  { intros r s1 s2 ->. exists (broadcast_message s1 s2).
    split; [reflexivity|]. split; [apply broadcast_message_prefix|].
    apply broadcast_message_names. }
  split.
  - intros H. unfold get_vegetation_index. split; [|split]; apply Hmsg.
    + rewrite String.eqb_refl.
      rewrite np_binop_incompatible by exact H. reflexivity.
    + change (("GLI" =? "VARI")%string) with false.
      rewrite String.eqb_refl. cbv iota.
      rewrite np_binop_incompatible by exact H. reflexivity.
    + change (("RGRI" =? "VARI")%string) with false.
      change (("RGRI" =? "GLI")%string) with false.
      rewrite String.eqb_refl. cbv iota.
      rewrite np_binop_incompatible
        by (rewrite broadcast_shapes_sym; exact H).
      reflexivity.
  - intros Hgr Hb. unfold get_vegetation_index.
    split; [apply Hmsg|split; [apply Hmsg|]].
    + rewrite String.eqb_refl.
      repeat (rewrite np_binop_same_shape by exact Hgr; cbn [bind]).
      rewrite np_binop_incompatible by exact Hb. reflexivity.
    + change (("GLI" =? "VARI")%string) with false.
      rewrite String.eqb_refl. cbv iota.
      repeat (rewrite np_binop_same_shape by exact Hgr; cbn [bind]).
      rewrite np_binop_incompatible by exact Hb. reflexivity.
    + change (("RGRI" =? "VARI")%string) with false.
      change (("RGRI" =? "GLI")%string) with false.
      rewrite String.eqb_refl. cbv iota.
      rewrite np_binop_same_shape by (symmetry; exact Hgr). reflexivity.
Qed.

Lemma get_vegetation_index_incompatible_shapes_witness :
  (exists msg,
     get_vegetation_index (const_band 1)
       (mk_ndarray [2; 3]%nat [1; 2; 3; 4; 5; 6]%N) (const_band 1) "GLI" true
       = Raise (ValueError msg) /\
     names "(2,3)" msg /\ names "(2,2)" msg) /\
  (exists msg,
     get_vegetation_index (mk_ndarray [2; 3]%nat [1; 2; 3; 4; 5; 6]%N)
       (const_band 1) (const_band 1) "VARI" true = Raise (ValueError msg) /\
     names "(2,2)" msg /\ names "(2,3)" msg).
Proof.
  split.
  - destruct (proj1 (proj2 (proj1 (get_vegetation_index_incompatible_shapes
                (const_band 1) (mk_ndarray [2; 3]%nat [1; 2; 3; 4; 5; 6]%N)
                (const_band 1) true) eq_refl)))
      as (msg & H & _ & H1 & H2).
    exists msg. split; [exact H|]. split; [exact H1|exact H2].
  - destruct (proj1 (proj2 (get_vegetation_index_incompatible_shapes
                (mk_ndarray [2; 3]%nat [1; 2; 3; 4; 5; 6]%N)
                (const_band 1) (const_band 1) true) eq_refl eq_refl))
      as (msg & H & _ & H1 & H2).
    exists msg. split; [exact H|]. split; [exact H1|exact H2].
Defined.

(** A sample converted to float is never negative. *)
Lemma as_float_signbit (n : N) : F64.signbit (as_float n) = false.
Proof.
  unfold as_float, F64.of_int, binary_normalize.
  destruct n as [|p]; [reflexivity|]. cbn [Z.of_N].
  unfold binary_round.
  destruct (shl_align p 0 _) as [mz ez].
  pose proof (binary_round_aux_sign false (Z.pos mz) ez loc_Exact) as H.
  destruct (binary_round_aux F64.prec F64.emax false (Z.pos mz) ez loc_Exact);
    simpl; auto.
Qed.

Lemma in_map2 {A B C : Type} (f : A -> B -> C) (xs : list A) (ys : list B)
      (c : C) :
  In c (map2 f xs ys) -> exists x y, In x xs /\ In y ys /\ c = f x y.
Proof.
  unfold map2. intros H. apply in_map_iff in H.
  destruct H as ([x y] & <- & Hin). exists x, y.
  split; [exact (in_combine_l _ _ _ _ Hin)|].
  split; [exact (in_combine_r _ _ _ _ Hin)|reflexivity].
Qed.

(** X9. RGRI never reads the blue band, so any blue array, of any shape,
    gives the same result; and on same-shaped red and green bands no cell of
    the result is negative: every cell fails the test [cell < 0], and every
    cell that is not NaN has a clear sign bit, so it is +0.0, a positive
    number or +infinity and never -0.0. *)
Theorem rgri_nonnegative (blue blue' green red : ndarray N)
        (normalize normalize' : bool) :
  shape red = shape green ->
  exists idx,
    get_vegetation_index blue green red "RGRI" normalize = Ok idx /\
    get_vegetation_index blue' green red "RGRI" normalize' = Ok idx /\
    forall cell, In cell (data idx) ->
      F64.ltb cell F64.zero = false /\
      (F64.is_nan cell = false -> F64.signbit cell = false).
Proof.
  intros Hr. unfold get_vegetation_index.
  change (("RGRI" =? "VARI")%string) with false.
  change (("RGRI" =? "GLI")%string) with false.
  rewrite String.eqb_refl. cbv iota.
  rewrite np_binop_same_shape by exact Hr.
  eexists. split; [reflexivity|]. split; [reflexivity|].
  cbn [data astype_float np_map]. intros cell Hin.
  apply in_map2 in Hin. destruct Hin as (x & y & Hx & Hy & ->).
  apply in_map_iff in Hx. destruct Hx as (r & <- & _).
  apply in_map_iff in Hy. destruct Hy as (g & <- & _).
  assert (Hs : F64.is_nan (F64.div (as_float r) (as_float g)) = false ->
               F64.signbit (F64.div (as_float r) (as_float g)) = false).
  { intros Hn. rewrite (div_signbit _ _ Hn), !as_float_signbit.
    reflexivity. }
  split; [|exact Hs].
  destruct (F64.div (as_float r) (as_float g)) as [s|s| |s m e];
    try reflexivity; simpl in Hs; rewrite (Hs eq_refl); reflexivity.
Qed.

Lemma rgri_nonnegative_witness :
  exists idx,
    get_vegetation_index (const_band 9) (const_band 4) (const_band 2)
      "RGRI" true = Ok idx /\
    get_vegetation_index (pixel_band 0) (const_band 4) (const_band 2)
      "RGRI" false = Ok idx.
Proof.
  destruct (rgri_nonnegative (const_band 9) (pixel_band 0) (const_band 4)
              (const_band 2) true false eq_refl) as (idx & H1 & H2 & _).
  exists idx. split; assumption.
Defined.

(** ** More on the pipeline *)

(** X13. A negative kernel size is rejected by [np.ones] before OpenCV is
    called: whatever [cv2.morphologyEx] does and whatever the mask,
    [morphological_operations] raises a [ValueError]. *)
Theorem morphological_operations_negative_kernel {A : Type}
        (cv2_morphologyEx :
           ndarray A -> morph_type -> ndarray N -> result (ndarray A))
        (mask : ndarray A) (kernel_size : Z) :
  kernel_size < 0 ->
  morphological_operations cv2_morphologyEx mask kernel_size =
    Raise (ValueError "negative dimensions are not allowed").
Proof.
  intros Hk. unfold morphological_operations, np_ones. cbn [forallb].
  replace (0 <=? kernel_size) with false
    by (symmetry; apply Z.leb_gt; exact Hk).
  reflexivity.
Qed.

Lemma morphological_operations_negative_kernel_witness :
  morphological_operations demo_morphologyEx
    (mk_ndarray [1; 1]%nat [marker]) (-1) =
    Raise (ValueError "negative dimensions are not allowed").
Proof.
  apply (morphological_operations_negative_kernel demo_morphologyEx).
  reflexivity.
Defined.

Section PipelineExtras.
Variable rasterio_read : string -> Z -> result (ndarray N).
Variable np_dstack : ndarray N -> ndarray N -> ndarray N -> result (ndarray N).
Variable cv2_morphologyEx :
  ndarray float -> morph_type -> ndarray N -> result (ndarray float).
Variable cv2_GaussianBlur :
  ndarray float -> Z * Z -> float -> result (ndarray float).

Let run := process_image rasterio_read np_dstack cv2_morphologyEx
             cv2_GaussianBlur.
Let bands_of := get_bands rasterio_read np_dstack.

(** X10. With bands of one shape, a zoom level of the table and a known
    index type, nothing of the source's own can fail: the kernel size is an
    odd integer from 1 to 101, the index and the masks are computed, and
    [process_image] is OpenCV's opening, closing and blur of the vegetation
    mask, with the all-ones kernel of that size and sigma 1. *)
Theorem process_image_succeeds (image_path : string) (zoom_level : Z)
        (index_min index_max : option float)
        (vegetation_index : option string)
        (blue green red rgb : ndarray N) :
  bands_of image_path = Ok (blue, green, red, rgb) ->
  shape blue = shape green -> shape red = shape green ->
  wf_ndarray blue -> wf_ndarray green -> wf_ndarray red ->
  0 <= zoom_level <= 23 ->
  In (default "VARI"%string vegetation_index)
     ["VARI"; "GLI"; "RGRI"]%string ->
  exists k veg_index veg nonveg,
    kernel_size_of zoom_level = Ok k /\
    Z.odd k = true /\ 1 <= k <= 101 /\
    get_vegetation_index blue green red
      (default "VARI"%string vegetation_index) true = Ok veg_index /\
    threshold veg_index (Some (default default_index_min index_min)) None
      = Ok (veg, nonveg) /\
    shape veg = shape green /\ wf_ndarray veg /\
    run image_path zoom_level index_min index_max vegetation_index =
      (let kernel := np_full [Z.to_nat k; Z.to_nat k] 1%N in
       opening <- cv2_morphologyEx veg MORPH_OPEN kernel ;;
       closing <- cv2_morphologyEx opening MORPH_CLOSE kernel ;;
       cv2_GaussianBlur closing (k, k) F64.one).
Proof.
  intros Hbands Hb Hr Wb Wg Wr Hz Hin.
  destruct (kernel_size_by_zoom zoom_level zoom_level)
    as (k & k' & Hk & Hk' & Hodd & _ & H1 & _ & H101 & _); try lia.
  rewrite Hk in Hk'. injection Hk' as <-.
  destruct (get_vegetation_index_pixels blue green red _ true Hb Hr Hin)
    as (idx & Ei & Si & Wi & _).
  specialize (Wi Wb Wg Wr).
  pose proof (threshold_defaults idx
                (Some (default default_index_min index_min)) None) as Et.
  cbn [default] in Et. rewrite (threshold_cells idx _ _ Wi) in Et.
  exists k, idx. eexists. eexists.
  split; [exact Hk|]. split; [exact Hodd|]. split; [lia|].
  split; [exact Ei|]. split; [exact Et|].
  split; [exact Si|].
  split; [red; cbn [shape data]; rewrite length_map; exact Wi|].
  unfold run, process_image. fold bands_of. rewrite Hbands. cbn [bind].
  unfold kernel_size_of in Hk.
  destruct (get_gsd_from_zoom zoom_level) as [gsd|]; [|discriminate Hk].
  cbn [bind] in Hk. cbn [bind]. rewrite Hk. cbn [bind].
  replace (match vegetation_index with
           | Some v => v
           | None => "VARI"%string
           end) with (default "VARI"%string vegetation_index)
    by (destruct vegetation_index; reflexivity).
  rewrite Ei. cbn [bind].
  replace (match index_min with
           | Some m => m
           | None => default_index_min
           end) with (default default_index_min index_min)
    by (destruct index_min; reflexivity).
  rewrite Et. cbn [bind fst].
  unfold morphological_operations, smoothing.
  rewrite np_ones_square by lia. cbn [bind].
  destruct (cv2_morphologyEx _ MORPH_OPEN _) as [opening|e];
    [|reflexivity].
  cbn [bind].
  destruct (cv2_morphologyEx opening MORPH_CLOSE _) as [closing|e];
    [|reflexivity].
  cbn [bind]. apply bind_ok_r.
Qed.

(** X11. The stacked [rgb] array that [get_bands] builds is never used: two
    [dstack] functions that both succeed on the bands read give the same
    outcome of [process_image]. *)
Theorem process_image_ignores_rgb
        (np_dstack' :
           ndarray N -> ndarray N -> ndarray N -> result (ndarray N))
        (image_path : string) (zoom_level : Z)
        (index_min index_max : option float)
        (vegetation_index : option string)
        (blue green red rgb rgb' : ndarray N) :
  rasterio_read image_path 1 = Ok blue ->
  rasterio_read image_path 2 = Ok green ->
  rasterio_read image_path 3 = Ok red ->
  np_dstack blue green red = Ok rgb ->
  np_dstack' blue green red = Ok rgb' ->
  run image_path zoom_level index_min index_max vegetation_index =
    process_image rasterio_read np_dstack' cv2_morphologyEx cv2_GaussianBlur
      image_path zoom_level index_min index_max vegetation_index.
Proof.
  intros H1 H2 H3 Hd Hd'. unfold run, process_image, get_bands.
  rewrite H1, H2, H3. cbn [bind]. rewrite Hd, Hd'. reflexivity.
Qed.

(** X12. Reading comes first: the first failure among the reads of bands 1,
    2 and 3 and the stacking is the error of [get_bands], and
    [process_image] raises it whatever the zoom level, the bounds and the
    index type are, valid or not. *)
Theorem process_image_read_error (image_path : string) (e : exn) :
  (rasterio_read image_path 1 = Raise e \/
   (exists blue,
      rasterio_read image_path 1 = Ok blue /\
      rasterio_read image_path 2 = Raise e) \/
   (exists blue green,
      rasterio_read image_path 1 = Ok blue /\
      rasterio_read image_path 2 = Ok green /\
      rasterio_read image_path 3 = Raise e) \/
   (exists blue green red,
      rasterio_read image_path 1 = Ok blue /\
      rasterio_read image_path 2 = Ok green /\
      rasterio_read image_path 3 = Ok red /\
      np_dstack blue green red = Raise e)) ->
  bands_of image_path = Raise e /\
  forall zoom_level index_min index_max vegetation_index,
    run image_path zoom_level index_min index_max vegetation_index = Raise e.
Proof.
  intros H.
  assert (Hb : bands_of image_path = Raise e).
  { unfold bands_of, get_bands.
    destruct H as [H|[(b & H1 & H)|[(b & g & H1 & H2 & H)
                                   |(b & g & r & H1 & H2 & H3 & H)]]].
    - rewrite H. reflexivity.
    - rewrite H1, H. reflexivity.
    - rewrite H1, H2, H. reflexivity.
    - rewrite H1, H2, H3. cbn [bind]. rewrite H. reflexivity. }
  split; [exact Hb|].
  intros. unfold run, process_image. fold bands_of. rewrite Hb. reflexivity.
Qed.

End PipelineExtras.

Lemma process_image_succeeds_witness :
  exists k veg,
    kernel_size_of 18 = Ok k /\ Z.odd k = true /\
    process_image demo_read demo_dstack demo_morphologyEx demo_GaussianBlur
      "tile.tif" 18 None None None = Ok veg.
Proof.
  destruct (process_image_succeeds demo_read demo_dstack demo_morphologyEx
              demo_GaussianBlur "tile.tif" 18 None None None
              (const_band 20) (const_band 200) (const_band 100)
              (mk_ndarray [2; 2; 3]%nat
                 [20; 200; 100; 20; 200; 100; 20; 200; 100;
                  20; 200; 100]%N)
              eq_refl eq_refl eq_refl eq_refl eq_refl eq_refl
              ltac:(lia) (or_introl eq_refl))
    as (k & idx & veg & nonveg & Hk & Hodd & _ & _ & _ & _ & _ & Hrun).
  exists k, veg. split; [exact Hk|]. split; [exact Hodd|].
  rewrite Hrun. reflexivity.
Defined.

Lemma process_image_ignores_rgb_witness :
  process_image demo_read demo_dstack demo_morphologyEx demo_GaussianBlur
    "tile.tif" 18 None None None =
  process_image demo_read (fun _ _ _ => Ok (pixel_band 0))
    demo_morphologyEx demo_GaussianBlur "tile.tif" 18 None None None.
Proof.
  apply (process_image_ignores_rgb demo_read demo_dstack demo_morphologyEx
           demo_GaussianBlur (fun _ _ _ => Ok (pixel_band 0))
           "tile.tif" 18 None None None
           (const_band 20) (const_band 200) (const_band 100)
           (mk_ndarray [2; 2; 3]%nat
              [20; 200; 100; 20; 200; 100; 20; 200; 100; 20; 200; 100]%N)
           (pixel_band 0));
    reflexivity.
Defined.

Lemma process_image_read_error_witness :
  process_image failing_read demo_dstack demo_morphologyEx demo_GaussianBlur
    "missing.tif" 99 None None (Some "NDVI"%string) =
    Raise (ExternalError "No such file or directory").
Proof.
  apply (proj2 (process_image_read_error failing_read demo_dstack
                  demo_morphologyEx demo_GaussianBlur "missing.tif"
                  (ExternalError "No such file or directory")
                  (or_introl eq_refl))).
Defined.

(** ** More on opening and closing of binary masks *)

Lemma length_flat_rows {A : Type} (g : nat -> nat -> A) (w h s : nat) :
  List.length (flat_map (fun r => map (g r) (seq 0 w)) (seq s h)) = (h * w)%nat.
Proof.
  revert s. induction h as [|h IH]; intros s; [reflexivity|].
  cbn [seq flat_map]. rewrite length_app, length_map, length_seq, IH.
  simpl. reflexivity.
Qed.

(** A well-formed mask is the mask built from its own pixels. *)
Lemma build_lookup (mask : ndarray bool) (h w : nat) :
  shape mask = [h; w] -> wf_ndarray mask ->
  build h w (lookup mask w) = mask.
Proof.
  destruct mask as [s d]. unfold wf_ndarray. cbn [shape data].
  intros -> Hlen. cbn [size_of fold_right] in Hlen.
  unfold build. f_equal.
  apply (nth_ext _ _ false false).
  - rewrite (length_flat_rows
               (fun i j => lookup (mk_ndarray [h; w] d) w
                             (Z.of_nat i) (Z.of_nat j))).
    lia.
  - intros n Hn.
    rewrite (length_flat_rows
               (fun i j => lookup (mk_ndarray [h; w] d) w
                             (Z.of_nat i) (Z.of_nat j))) in Hn.
    assert (Hw : (w <> 0)%nat) by (intros ->; lia).
    pose proof (Nat.div_mod_eq n w) as Hdm.
    pose proof (Nat.mod_upper_bound n w Hw) as Hmod.
    assert (Hdiv : (n / w < h)%nat)
      by (apply Nat.Div0.div_lt_upper_bound; lia).
    replace n with (n / w * w + n mod w)%nat at 1 by lia.
    rewrite (nth_flat_rows
               (fun i j => lookup (mk_ndarray [h; w] d) w
                             (Z.of_nat i) (Z.of_nat j)))
      by assumption.
    unfold lookup. cbn [data]. f_equal. lia.
Qed.

(** With the one-cell kernel erosion and dilation read the pixel itself. *)
Lemma one_cell_kernel (h w : nat) (f : Z -> Z -> bool) :
  mask_eq h w (erode_px h w [(0, 0)] f) f /\
  mask_eq h w (dilate_px h w [(0, 0)] f) f.
Proof.
  split; intros y x Hi; unfold erode_px, dilate_px; cbn [forallb existsb fst snd];
    rewrite !Z.add_0_r, Hi; cbn [negb orb andb];
    destruct (f y x); reflexivity.
Qed.

(** X14. With kernel size 1 the opening and the closing change nothing:
    [morphological_operations] returns a well-formed 2-D binary mask as it
    is. *)
Theorem morphological_operations_kernel_one (mask : ndarray bool)
        (h w : nat) :
  shape mask = [h; w] -> wf_ndarray mask ->
  morphological_operations cv2_binary_morphologyEx mask 1 = Ok mask.
Proof.
  intros Hs Hwf.
  rewrite (morphological_operations_build mask h w 1 Hs ltac:(lia)).
  change (kernel_offsets (np_full [Z.to_nat 1; Z.to_nat 1] 1%N))
    with [(0, 0)].
  f_equal. rewrite <- (build_lookup mask h w Hs Hwf) at 2.
  apply build_ext. intros y x Hi. unfold open_close.
  destruct (one_cell_kernel h w
              (dilate_px h w [(0, 0)]
                 (dilate_px h w [(0, 0)]
                    (erode_px h w [(0, 0)] (lookup mask w))))) as [E1 _].
  rewrite (E1 y x Hi).
  destruct (one_cell_kernel h w
              (dilate_px h w [(0, 0)]
                 (erode_px h w [(0, 0)] (lookup mask w)))) as [_ E2].
  rewrite (E2 y x Hi).
  destruct (one_cell_kernel h w (erode_px h w [(0, 0)] (lookup mask w)))
    as [_ E3].
  rewrite (E3 y x Hi).
  destruct (one_cell_kernel h w (lookup mask w)) as [E4 _].
  exact (E4 y x Hi).
Qed.

Lemma morphological_operations_kernel_one_witness :
  morphological_operations cv2_binary_morphologyEx demo_mask 1 = Ok demo_mask.
Proof.
  apply (morphological_operations_kernel_one demo_mask 5 5); reflexivity.
Defined.

(** X15. For an odd kernel size >= 1 the result of
    [morphological_operations] on a binary mask lies between the opening
    and the closing of the mask, which themselves lie below and above the
    mask: a pixel of the opening is a pixel of the mask and of the result,
    and a pixel of the mask or of the result is a pixel of the closing. *)
Theorem morphological_operations_between (mask : ndarray bool)
        (h w : nat) (kernel_size : Z) :
  shape mask = [h; w] -> Z.odd kernel_size = true -> 1 <= kernel_size ->
  let kernel :=
    np_full [Z.to_nat kernel_size; Z.to_nat kernel_size] 1%N in
  exists opened closed once,
    cv2_binary_morphologyEx mask MORPH_OPEN kernel = Ok opened /\
    cv2_binary_morphologyEx mask MORPH_CLOSE kernel = Ok closed /\
    morphological_operations cv2_binary_morphologyEx mask kernel_size
      = Ok once /\
    forall y x, inside h w y x = true ->
      (lookup opened w y x = true -> lookup mask w y x = true) /\
      (lookup opened w y x = true -> lookup once w y x = true) /\
      (lookup once w y x = true -> lookup closed w y x = true) /\
      (lookup mask w y x = true -> lookup closed w y x = true).
Proof.
  intros Hs Hodd Hk kernel.
  pose proof (ones_offsets_symmetric (Z.to_nat kernel_size)
                (odd_to_nat kernel_size Hodd Hk)) as Hsym.
  rewrite (morphological_operations_build mask h w kernel_size Hs
             ltac:(lia)).
  fold kernel.
  set (offs := kernel_offsets kernel) in *.
  set (f := lookup mask w).
  unfold cv2_binary_morphologyEx, cv2_erode, cv2_dilate.
  rewrite Hs. cbn [shape np_full build bind kernel]. fold kernel offs f.
  do 3 eexists. split; [reflexivity|]. split; [reflexivity|].
  split; [reflexivity|].
  intros y x Hi.
  rewrite (lookup_build h w _ y x Hi).
  rewrite (lookup_build h w _ y x Hi).
  rewrite (lookup_build h w _ y x Hi).
  rewrite (dilate_ext h w offs _ (erode_px h w offs f) y x)
    by apply lookup_build.
  rewrite (erode_ext h w offs _ (dilate_px h w offs f) y x)
    by apply lookup_build.
  unfold open_close.
  split; [apply (opening_below h w offs Hsym f y x Hi)|].
  split; [apply (closing_above h w offs Hsym
                   (dilate_px h w offs (erode_px h w offs f)) y x Hi)|].
  split; [|apply (closing_above h w offs Hsym f y x Hi)].
  apply (erode_mono h w offs
           (dilate_px h w offs (dilate_px h w offs (erode_px h w offs f)))
           (dilate_px h w offs f)); [|exact Hi].
  apply dilate_mono. apply opening_below. exact Hsym.
Qed.

Lemma morphological_operations_between_witness :
  exists opened closed once,
    cv2_binary_morphologyEx demo_mask MORPH_OPEN (np_full [3; 3]%nat 1%N)
      = Ok opened /\
    cv2_binary_morphologyEx demo_mask MORPH_CLOSE (np_full [3; 3]%nat 1%N)
      = Ok closed /\
    morphological_operations cv2_binary_morphologyEx demo_mask 3 = Ok once.
Proof.
  destruct (morphological_operations_between demo_mask 5 5 3
              eq_refl eq_refl ltac:(lia))
    as (opened & closed & once & H1 & H2 & H3 & _).
  exists opened, closed, once. repeat split; assumption.
Defined.

(** ** [url_to_arr] *)

Section UrlToArrProperties.
Context {Dataset Colormap : Type}.
Variable rasterio_open : list Byte.byte -> result Dataset.
Variable dataset_read : Dataset -> result (ndarray N).
Variable dataset_colormap : Dataset -> Z -> result Colormap.

(** X16. The status code of the response is printed and never checked: two
    responses with the same body give the same outcome whatever their
    status codes, a 404 like a 200, and each run prints exactly the status
    code it received, also when the body cannot be opened. *)
Theorem url_to_arr_status_unchecked
        (requests_get requests_get' : string -> result response)
        (url : string) (return_colormap : bool) (r r' : response) :
  requests_get url = Ok r -> requests_get' url = Ok r' ->
  content r = content r' ->
  snd (url_to_arr requests_get rasterio_open dataset_read dataset_colormap
         url return_colormap) =
  snd (url_to_arr requests_get' rasterio_open dataset_read dataset_colormap
         url return_colormap) /\
  fst (url_to_arr requests_get rasterio_open dataset_read dataset_colormap
         url return_colormap) = [py_str_int (status_code r)] /\
  fst (url_to_arr requests_get' rasterio_open dataset_read dataset_colormap
         url return_colormap) = [py_str_int (status_code r')].
Proof.
  intros H H' Hc. unfold url_to_arr. rewrite H, H'. cbn [fst snd].
  rewrite Hc. repeat split.
Qed.

(** X17. The array returned together with the colormap is the array
    returned alone: when [url_to_arr] succeeds with [return_colormap] set,
    it succeeds without it, on the same array; and without it the colormap
    of the dataset is never consulted. *)
Theorem url_to_arr_same_array
        (requests_get : string -> result response)
        (dataset_colormap' : Dataset -> Z -> result Colormap)
        (url : string) :
  (forall out arr cm,
     url_to_arr requests_get rasterio_open dataset_read dataset_colormap
       url true = (out, Ok (arr, Some cm)) ->
     url_to_arr requests_get rasterio_open dataset_read dataset_colormap
       url false = (out, Ok (arr, None))) /\
  url_to_arr requests_get rasterio_open dataset_read dataset_colormap
    url false =
  url_to_arr requests_get rasterio_open dataset_read dataset_colormap'
    url false.
Proof.
  split; [|reflexivity].
  intros out arr cm. unfold url_to_arr.
  destruct (requests_get url) as [r|e]; [|discriminate].
  destruct (rasterio_open (content r)) as [ds|e]; cbn [bind];
    [|discriminate].
  destruct (dataset_read ds) as [a|e]; cbn [bind]; [|discriminate].
  destruct (dataset_colormap ds 1) as [c|e]; cbn [bind]; [|discriminate].
  intros [= <- <- <-]. reflexivity.
Qed.

End UrlToArrProperties.

Lemma url_to_arr_status_unchecked_witness :
  snd (url_to_arr demo_get_404 demo_open demo_dataset_read demo_colormap
         "https://example.org/tile.tif" true) =
  snd (url_to_arr demo_get_200 demo_open demo_dataset_read demo_colormap
         "https://example.org/tile.tif" true) /\
  fst (url_to_arr demo_get_404 demo_open demo_dataset_read demo_colormap
         "https://example.org/tile.tif" true) = ["404"%string].
Proof.
  destruct (url_to_arr_status_unchecked demo_open demo_dataset_read
              demo_colormap demo_get_404 demo_get_200
              "https://example.org/tile.tif" true
              (mk_response 404 demo_body) (mk_response 200 demo_body)
              eq_refl eq_refl eq_refl) as (H1 & H2 & _).
  split; [exact H1|exact H2].
Defined.

Lemma url_to_arr_same_array_witness :
  url_to_arr demo_get_200 demo_open demo_dataset_read demo_colormap
    "https://example.org/tile.tif" false =
    (["200"%string],
     Ok (mk_ndarray [1; 1; 3]%nat [1; 2; 3]%N, None)).
Proof.
  apply (proj1 (url_to_arr_same_array demo_open demo_dataset_read
                  demo_colormap demo_get_200 demo_colormap
                  "https://example.org/tile.tif")
           ["200"%string] (mk_ndarray [1; 1; 3]%nat [1; 2; 3]%N) 3%nat).
  reflexivity.
Defined.
